(** * ProviderSolanaInjection: notification routing and session state

    A shallow embedding of
    [packages/provider-core/src/provider-solana-new.ts].

    The provider object is a record of its private fields.  A method is a
    computation in a small monad that threads the provider, may throw, and
    records, in order, every effect that leaves the object: public events
    handed to [emit], console and logger output, and calls on the
    trusted-side client.  A promise awaited by a method is settled by the
    environment: the caller of the model supplies, for each [await], the
    notifications delivered while the method is suspended and the value or
    rejection the promise settles with.  Subscribers of the public events
    and the trusted side itself are outside the file: [emit] and a client
    call are recorded, not run, and two method calls do not overlap. *)

From Stdlib Require Import String List Bool Ascii NArith.
Import ListNotations.
Local Open Scope string_scope.
Local Open Scope list_scope.

Set Implicit Arguments.

(** ** Values crossing the boundary *)

(** The members of the [Blockchain] enum of [@coral-xyz/common]; the
    payload field is untyped, so any other tag may arrive as well. *)
Inductive Blockchain : Type :=
| SOLANA
| ETHEREUM
| OtherBlockchain (tag : string).

Definition Blockchain_eqb (a b : Blockchain) : bool :=
  match a, b with
  | SOLANA, SOLANA => true
  | ETHEREUM, ETHEREUM => true
  | OtherBlockchain x, OtherBlockchain y => String.eqb x y
  | _, _ => false
  end.

(** The channel constants the file imports.  They are distinct string
    literals; a message may carry any other tag. *)
Inductive Channel : Type :=
| CHANNEL_PLUGIN_NOTIFICATION
| CHANNEL_SOLANA_CONNECTION_INJECTED_REQUEST
| CHANNEL_SOLANA_CONNECTION_INJECTED_RESPONSE
| CHANNEL_SOLANA_NOTIFICATION
| CHANNEL_SOLANA_RPC_REQUEST
| CHANNEL_SOLANA_RPC_RESPONSE
| OtherChannel (tag : string).

(** The notification names the [switch] of [#handleNotification]
    discriminates on, and every other string. *)
Inductive NotificationName : Type :=
| NOTIFICATION_SOLANA_CONNECTED
| NOTIFICATION_SOLANA_DISCONNECTED
| NOTIFICATION_CONNECTION_URL_UPDATED
| NOTIFICATION_ACTIVE_WALLET_UPDATED
| PLUGIN_NOTIFICATION_CONNECT
| PLUGIN_NOTIFICATION_MOUNT
| PLUGIN_NOTIFICATION_UPDATE_METADATA
| PLUGIN_NOTIFICATION_UNMOUNT
| PLUGIN_NOTIFICATION_CONNECTION_URL_UPDATED
| PLUGIN_NOTIFICATION_SOLANA_PUBLIC_KEY_UPDATED
| OtherName (name : string).

(** [event.data.detail.data]: the properties the handlers read.  A property
    that is missing reads as [undefined], here [None].  [publicKeys] and
    [connectionUrls] are objects indexed by blockchain. *)
Module Data.
Record t : Type := make {
  blockchain : option Blockchain;
  url : option string;
  activeWallet : option string;
  publicKey : option string;
  publicKeys : option (Blockchain -> option string);
  connectionUrls : option (Blockchain -> option string)
}.
End Data.

(** [event.data.detail] *)
Record Detail : Type := mkDetail {
  name : NotificationName;
  data : option Data.t
}.

(** A [message] event as the window delivers it: where it came from (read
    only by [isValidEventOrigin]), [event.data.type] and
    [event.data.detail]. *)
Record Event : Type := mkEvent {
  origin : string;
  type : Channel;
  detail : Detail
}.

(** ** Objects built by the SDK constructors

    [new X(a, b)] is recorded as the constructor applied to its arguments.
    [new PublicKey] and [new Connection] of [@solana/web3.js] throw on an
    argument they do not accept; which arguments those are is the host's
    [PublicKey_throws] and [Connection_throws] below.
    [BackgroundSolanaConnection], [SolanaClient], the request managers and
    the transport sender are classes of other packages of the repository;
    their constructors store their arguments. *)

Inductive RequestManager : Type :=
| InjectedRequestManager (requestChannel responseChannel : Channel).

Inductive Connection : Type :=
| Connection_new (endpoint : option string)
| BackgroundSolanaConnection_new (requestManager : RequestManager)
    (url : option string).

Inductive PublicKey : Type :=
| PublicKey_new (value : option string).

(** What the field [#publicKey] holds when it is not [undefined]: an object
    built by [new PublicKey], or the raw payload value stored by
    [#handlePluginPublicKeyUpdated]. *)
Inductive KeyValue : Type :=
| KeyObject (key : PublicKey)
| KeyRaw (value : string).

(** JavaScript truthiness of [this.#publicKey]. *)
Definition truthy (k : option KeyValue) : bool :=
  match k with
  | None => false
  | Some (KeyObject _) => true
  | Some (KeyRaw s) => negb (String.eqb s "")
  end.

(** [a ?? b] *)
Definition nullish {A : Type} (a b : option A) : option A :=
  match a with
  | Some _ => a
  | None => b
  end.

(** [#secureClientOrigin]: one object, shared with the transport sender,
    whose [context] is assigned in place. *)
Inductive OriginContext : Type := browser | xnft.

Record SecureEventOrigin : Type := mkOrigin {
  context : OriginContext;
  origin_name : string;
  address : string
}.

(** [new FromContentScriptTransportSender(this.#secureClientOrigin)]: built
    once; it keeps a reference to the provider's origin object. *)
Inductive Sender : Type := FromContentScriptTransportSender_new.

Record SolanaClient : Type := SolanaClient_new {
  sender : Sender;
  client_connection : Connection
}.

(** Opaque data handed through to the trusted side. *)
Definition Transaction : Type := string.
Definition Signers : Type := option (list string).
Definition Options : Type := option string.
Definition Commitment : Type := option string.
Definition Bytes : Type := string.
Definition Response : Type := string.

(** The argument object of each method of the trusted-side client. *)
Inductive Request : Type :=
| Req_connect
| Req_disconnect
| Req_sendAndConfirm (publicKey : option KeyValue) (tx : Transaction)
    (signers : Signers) (options : Options)
    (customConnection : option Connection)
| Req_send (publicKey : option KeyValue) (tx : Transaction)
    (signers : Signers) (options : Options)
    (customConnection : option Connection)
| Req_signTransaction (publicKey : option KeyValue) (tx : Transaction)
    (customConnection : option Connection)
| Req_signAllTransactions (publicKey : option KeyValue)
    (txs : list Transaction) (customConnection : option Connection)
| Req_prepareSolanaOffchainMessage (message : Bytes) (encoding : string)
    (maxLength : nat)
| Req_signMessage (publicKey : option KeyValue) (message : Bytes).

Inductive RpcMethod : Type := SOLANA_RPC_METHOD_OPEN_XNFT.

(** What [client.connect()] resolves to. *)
Record ConnectResult : Type := mkConnectResult {
  result_publicKey : string;
  result_connectionUrl : string
}.

(** ** Exceptions, effects and the method monad *)

Inductive Exn : Type :=
| Error (message : string)
| TypeError (message : string)
| Rejection (reason : string).

Inductive Effect : Type :=
| Emit (eventName : string) (payload : Detail)
| ConsoleWarn (message : string)
| LoggerDebug (label : string) (event : Event)
| ClientCall (client : SolanaClient) (request : Request)
| ManagerRequest (manager : RequestManager) (method : RpcMethod)
    (params : list string)
| CmnSimulate (publicKey : option KeyValue) (manager : RequestManager)
    (connection : Connection) (tx : Transaction) (signers : Signers)
    (commitment : Commitment)
| Uncaught (e : Exn).

(** The private fields of [ProviderSolanaInjection].  [#isXnft] is declared
    and never initialised: it reads as [undefined], which is falsy, until
    [#handlePluginConnect] assigns [true]; [false] stands for that unset
    value. *)
Record Provider : Type := mkProvider {
  _options : Options;
  _backpackRequestManager : RequestManager;
  _connectionRequestManager : RequestManager;
  _requestManager : RequestManager;
  _isBackpack : bool;
  _isConnected : bool;
  _isXnft : bool;
  _publicKey : option KeyValue;
  _connection : Connection;
  _secureSolanaClient : SolanaClient;
  _secureClientOrigin : SecureEventOrigin;
  _secureClientSender : Sender
}.

Inductive Completion (A : Type) : Type :=
| Normal (value : A)
| Throw (e : Exn).
Arguments Throw {A} e.

Record Outcome (A : Type) : Type := mkOutcome {
  completion : Completion A;
  after : Provider;
  trace : list Effect
}.

Definition M (A : Type) : Type := Provider -> Outcome A.

Definition ret {A : Type} (a : A) : M A :=
  fun this => mkOutcome (Normal a) this [].

Definition throw {A : Type} (e : Exn) : M A :=
  fun this => mkOutcome (Throw e) this [].

Definition bind {A B : Type} (m : M A) (k : A -> M B) : M B :=
  fun this =>
    match m this with
    | mkOutcome (Normal a) this' t =>
        match k a this' with
        | mkOutcome c this'' t' => mkOutcome c this'' (t ++ t')
        end
    | mkOutcome (Throw e) this' t => mkOutcome (Throw e) this' t
    end.

Definition get : M Provider :=
  fun this => mkOutcome (Normal this) this [].

Definition modify (f : Provider -> Provider) : M unit :=
  fun this => mkOutcome (Normal tt) (f this) [].

Definition tell (e : Effect) : M unit :=
  fun this => mkOutcome (Normal tt) this [e].

Declare Scope method_scope.
Delimit Scope method_scope with method.
Notation "x <- m ;; k" := (bind m (fun x => k))
  (at level 61, m at next level, right associativity) : method_scope.
Notation "m ;; k" := (bind m (fun _ => k))
  (at level 61, right associativity) : method_scope.
Local Open Scope method_scope.

(** [if (c) { m }] *)
Definition when (c : bool) (m : M unit) : M unit :=
  if c then m else ret tt.

(** Assignments to the private fields. *)
Definition set_isConnected (b : bool) (p : Provider) : Provider :=
  mkProvider (_options p) (_backpackRequestManager p)
    (_connectionRequestManager p) (_requestManager p) (_isBackpack p)
    b (_isXnft p) (_publicKey p) (_connection p) (_secureSolanaClient p)
    (_secureClientOrigin p) (_secureClientSender p).

Definition set_isXnft (b : bool) (p : Provider) : Provider :=
  mkProvider (_options p) (_backpackRequestManager p)
    (_connectionRequestManager p) (_requestManager p) (_isBackpack p)
    (_isConnected p) b (_publicKey p) (_connection p) (_secureSolanaClient p)
    (_secureClientOrigin p) (_secureClientSender p).

Definition set_publicKey (k : option KeyValue) (p : Provider) : Provider :=
  mkProvider (_options p) (_backpackRequestManager p)
    (_connectionRequestManager p) (_requestManager p) (_isBackpack p)
    (_isConnected p) (_isXnft p) k (_connection p) (_secureSolanaClient p)
    (_secureClientOrigin p) (_secureClientSender p).

Definition set_connection (c : Connection) (p : Provider) : Provider :=
  mkProvider (_options p) (_backpackRequestManager p)
    (_connectionRequestManager p) (_requestManager p) (_isBackpack p)
    (_isConnected p) (_isXnft p) (_publicKey p) c (_secureSolanaClient p)
    (_secureClientOrigin p) (_secureClientSender p).

Definition set_secureSolanaClient (c : SolanaClient) (p : Provider)
  : Provider :=
  mkProvider (_options p) (_backpackRequestManager p)
    (_connectionRequestManager p) (_requestManager p) (_isBackpack p)
    (_isConnected p) (_isXnft p) (_publicKey p) (_connection p) c
    (_secureClientOrigin p) (_secureClientSender p).

Definition set_origin_context (c : OriginContext) (p : Provider)
  : Provider :=
  mkProvider (_options p) (_backpackRequestManager p)
    (_connectionRequestManager p) (_requestManager p) (_isBackpack p)
    (_isConnected p) (_isXnft p) (_publicKey p) (_connection p)
    (_secureSolanaClient p)
    (mkOrigin c (origin_name (_secureClientOrigin p))
       (address (_secureClientOrigin p)))
    (_secureClientSender p).

(** What the page, the build and the SDK supply: the origin check imported
    from the package index, the build-time default endpoint, the page
    identity, and the exception [new PublicKey(value)] and
    [new Connection(endpoint)] throw, if any.  The constructor of the
    provider has built the default connection, so that endpoint is one the
    SDK accepts. *)
Class Host : Type := mkHost {
  isValidEventOrigin : Event -> bool;
  process_env_DEFAULT_SOLANA_CONNECTION_URL : option string;
  DEFAULT_SOLANA_CLUSTER : string;
  document_title : string;
  window_location_origin : string;
  PublicKey_throws : option string -> option Exn;
  Connection_throws : option string -> option Exn;
  default_endpoint_accepted :
    Connection_throws
      (Some
         match process_env_DEFAULT_SOLANA_CONNECTION_URL with
         | Some u => if String.eqb u "" then DEFAULT_SOLANA_CLUSTER else u
         | None => DEFAULT_SOLANA_CLUSTER
         end) = None
}.

(** A promise the method awaits, as the environment settles it: the
    notifications the window delivers while the method is suspended, then
    the value it resolves to or the reason it rejects with. *)
Record Settled (A : Type) : Type := mkSettled {
  during : list Event;
  settles : A + Exn
}.

Definition resolved {A : Type} (a : A) : Settled A := mkSettled [] (inl a).
Definition rejected {A : Type} (e : Exn) : Settled A := mkSettled [] (inr e).

Section ProviderSolanaInjection.

Context {host : Host}.

(** [process.env.DEFAULT_SOLANA_CONNECTION_URL || DEFAULT_SOLANA_CLUSTER] *)
Definition default_url : string :=
  match process_env_DEFAULT_SOLANA_CONNECTION_URL with
  | Some u => if String.eqb u "" then DEFAULT_SOLANA_CLUSTER else u
  | None => DEFAULT_SOLANA_CLUSTER
  end.

(** [defaultConnection()]: the call the constructor has made, with the
    same argument; it returns. *)
Definition defaultConnection : Connection :=
  Connection_new (Some default_url).

(** The provider as the constructor leaves it. *)
Definition constructor : Provider :=
  let backpackRequestManager :=
    InjectedRequestManager CHANNEL_SOLANA_RPC_REQUEST
      CHANNEL_SOLANA_RPC_RESPONSE in
  mkProvider
    None
    backpackRequestManager
    (InjectedRequestManager CHANNEL_SOLANA_CONNECTION_INJECTED_REQUEST
       CHANNEL_SOLANA_CONNECTION_INJECTED_RESPONSE)
    backpackRequestManager
    true
    false
    false
    None
    defaultConnection
    (SolanaClient_new FromContentScriptTransportSender_new defaultConnection)
    (mkOrigin browser document_title window_location_origin)
    FromContentScriptTransportSender_new.

(** Reading a property of [o]: a [TypeError] when [o] is [undefined]. *)
Definition deref {A : Type} (what : string) (o : option A) : M A :=
  match o with
  | Some a => ret a
  | None => throw (TypeError what)
  end.

Definition emit (eventName : string) (payload : Detail) : M unit :=
  tell (Emit eventName payload).

Definition console_warn (message : string) : M unit :=
  tell (ConsoleWarn message).

(** [new PublicKey(value)] *)
Definition new_PublicKey (value : option string) : M PublicKey :=
  match PublicKey_throws value with
  | Some e => throw e
  | None => ret (PublicKey_new value)
  end.

(** [new Connection(endpoint)] *)
Definition new_Connection (endpoint : option string) : M Connection :=
  match Connection_throws endpoint with
  | Some e => throw e
  | None => ret (Connection_new endpoint)
  end.

(** [#connect(publicKey, connectionUrl)] *)
Definition connect_ (publicKey connectionUrl : option string) : M unit :=
  modify (set_isConnected true) ;;
  key <- new_PublicKey publicKey ;;
  modify (set_publicKey (Some (KeyObject key))) ;;
  this <- get ;;
  modify (set_connection
            (BackgroundSolanaConnection_new (_connectionRequestManager this)
               connectionUrl)) ;;
  this <- get ;;
  modify (set_secureSolanaClient
            (SolanaClient_new (_secureClientSender this) (_connection this))).

Definition handlePluginConnect (event : Event) : M unit :=
  d <- deref "event.data.detail.data" (data (detail event)) ;;
  publicKeys <- deref "publicKeys" (Data.publicKeys d) ;;
  let publicKey := publicKeys SOLANA in
  connectionUrls <- deref "connectionUrls" (Data.connectionUrls d) ;;
  let connectionUrl := connectionUrls SOLANA in
  modify (set_origin_context xnft) ;;
  modify (set_isXnft true) ;;
  connect_ publicKey connectionUrl ;;
  emit "connect" (detail event).

Definition handlePluginMount (event : Event) : M unit :=
  emit "mount" (detail event).

Definition handlePluginUpdateMetadata (event : Event) : M unit :=
  emit "metadata" (detail event).

Definition handlePluginUnmount (event : Event) : M unit :=
  emit "unmount" (detail event).

(** [x !== Blockchain.SOLANA] on a property that may be [undefined]. *)
Definition not_SOLANA (b : option Blockchain) : bool :=
  match b with
  | Some c => negb (Blockchain_eqb c SOLANA)
  | None => true
  end.

Definition handlePluginConnectionUrlUpdated (event : Event) : M unit :=
  d <- deref "event.data.detail.data" (data (detail event)) ;;
  if not_SOLANA (Data.blockchain d) then ret tt
  else
    let connectionUrl := Data.url d in
    this <- get ;;
    modify (set_connection
              (BackgroundSolanaConnection_new (_connectionRequestManager this)
                 connectionUrl)) ;;
    this <- get ;;
    modify (set_secureSolanaClient
              (SolanaClient_new (_secureClientSender this) (_connection this))) ;;
    emit "connectionDidChange" (detail event).

Definition handlePluginPublicKeyUpdated (event : Event) : M unit :=
  d <- deref "event.data.detail.data" (data (detail event)) ;;
  let publicKey := Data.publicKey d in
  modify (set_publicKey (option_map KeyRaw publicKey)) ;;
  emit "publicKeyUpdate" (detail event).

Definition handleNotificationConnected (event : Event) : M unit :=
  emit "connect" (detail event).

Definition handleNotificationDisconnected (event : Event) : M unit :=
  modify (set_isConnected false) ;;
  modify (set_connection defaultConnection) ;;
  this <- get ;;
  modify (set_secureSolanaClient
            (SolanaClient_new (_secureClientSender this) (_connection this))) ;;
  emit "disconnect" (detail event).

Definition handleNotificationConnectionUrlUpdated (event : Event) : M unit :=
  d <- deref "event.data.detail.data" (data (detail event)) ;;
  if not_SOLANA (Data.blockchain d) then ret tt
  else
    connection <- new_Connection (Data.url d) ;;
    this <- get ;;
    modify (set_secureSolanaClient
              (SolanaClient_new (_secureClientSender this) connection)) ;;
    emit "connectionDidChange" (detail event).

Definition handleNotificationActiveWalletUpdated (event : Event) : M unit :=
  d <- deref "event.data.detail.data" (data (detail event)) ;;
  if not_SOLANA (Data.blockchain d) then ret tt
  else
    key <- new_PublicKey (Data.activeWallet d) ;;
    modify (set_publicKey (Some (KeyObject key))) ;;
    emit "activeWalletDidChange" (detail event).

(** [event.data.type !== CHANNEL_SOLANA_NOTIFICATION &&
     event.data.type !== CHANNEL_PLUGIN_NOTIFICATION] *)
Definition foreign_channel (c : Channel) : bool :=
  match c with
  | CHANNEL_SOLANA_NOTIFICATION => false
  | CHANNEL_PLUGIN_NOTIFICATION => false
  | _ => true
  end.

Definition handleNotification (event : Event) : M unit :=
  if negb (isValidEventOrigin event) then ret tt
  else if foreign_channel (type event) then ret tt
  else
    tell (LoggerDebug "notification" event) ;;
    match name (detail event) with
    | NOTIFICATION_SOLANA_CONNECTED => handleNotificationConnected event
    | NOTIFICATION_SOLANA_DISCONNECTED => handleNotificationDisconnected event
    | NOTIFICATION_CONNECTION_URL_UPDATED =>
        handleNotificationConnectionUrlUpdated event
    | NOTIFICATION_ACTIVE_WALLET_UPDATED =>
        handleNotificationActiveWalletUpdated event
    | PLUGIN_NOTIFICATION_CONNECT => handlePluginConnect event
    | PLUGIN_NOTIFICATION_MOUNT => handlePluginMount event
    | PLUGIN_NOTIFICATION_UPDATE_METADATA => handlePluginUpdateMetadata event
    | PLUGIN_NOTIFICATION_UNMOUNT => handlePluginUnmount event
    | PLUGIN_NOTIFICATION_CONNECTION_URL_UPDATED =>
        handlePluginConnectionUrlUpdated event
    | PLUGIN_NOTIFICATION_SOLANA_PUBLIC_KEY_UPDATED =>
        handlePluginPublicKeyUpdated event
    | OtherName unexpected =>
        throw (Error ("unexpected notification " ++ unexpected))
    end.

(** The window runs the listener once per message; an exception that
    escapes the listener is reported and does not reach the next message
    or a suspended method. *)
Definition listener (event : Event) : M unit :=
  fun this =>
    match handleNotification event this with
    | mkOutcome (Normal _) this' t => mkOutcome (Normal tt) this' t
    | mkOutcome (Throw e) this' t =>
        mkOutcome (Normal tt) this' (t ++ [Uncaught e])
    end.

Fixpoint deliver (events : list Event) : M unit :=
  match events with
  | [] => ret tt
  | event :: rest => listener event ;; deliver rest
  end.

(** [await p] *)
Definition await {A : Type} (p : Settled A) : M A :=
  deliver (during p) ;;
  match settles p with
  | inl a => ret a
  | inr e => throw e
  end.

(** [await this.#secureSolanaClient.method(request)] *)
Definition client_call {A : Type} (request : Request) (p : Settled A) : M A :=
  this <- get ;;
  tell (ClientCall (_secureSolanaClient this) request) ;;
  await p.


(** ** The public methods *)

Definition connect (onConnect : Settled ConnectResult) : M unit :=
  this <- get ;;
  if _isConnected this then console_warn "provider already connected"
  else
    when (_isXnft this) (console_warn "xnft already connected") ;;
    result <- client_call Req_connect onConnect ;;
    connect_ (Some (result_publicKey result))
      (Some (result_connectionUrl result)).

Definition disconnect (onDisconnect : Settled unit) : M unit :=
  this <- get ;;
  if _isXnft this then console_warn "xnft can't be disconnected"
  else
    client_call Req_disconnect onDisconnect ;;
    modify (set_connection defaultConnection) ;;
    this <- get ;;
    modify (set_secureSolanaClient
              (SolanaClient_new (_secureClientSender this) (_connection this))) ;;
    modify (set_isConnected false) ;;
    modify (set_publicKey None).

Definition openXnft (xnftAddress : string) (onRequest : Settled unit)
  : M unit :=
  this <- get ;;
  if _isXnft this
  then throw (Error "xnft context: use window.xnft.openPlugin instead")
  else
    tell (ManagerRequest (_requestManager this) SOLANA_RPC_METHOD_OPEN_XNFT
            [xnftAddress]) ;;
    await onRequest.

Definition sendAndConfirm (tx : Transaction) (signers : Signers)
    (options : Options) (connection : option Connection)
    (publicKey : option PublicKey)
    (onConnect : Settled ConnectResult) (onResponse : Settled Response)
  : M Response :=
  this <- get ;;
  when (negb (truthy (_publicKey this))) (connect onConnect) ;;
  this <- get ;;
  if negb (truthy (_publicKey this)) then throw (Error "wallet not connected")
  else
    client_call
      (Req_sendAndConfirm
         (nullish (option_map KeyObject publicKey) (_publicKey this))
         tx signers options connection)
      onResponse.

Definition send (tx : Transaction) (signers : Signers)
    (options : Options) (connection : option Connection)
    (publicKey : option PublicKey)
    (onConnect : Settled ConnectResult) (onResponse : Settled Response)
  : M Response :=
  this <- get ;;
  when (negb (truthy (_publicKey this))) (connect onConnect) ;;
  this <- get ;;
  if negb (truthy (_publicKey this)) then throw (Error "wallet not connected")
  else
    client_call
      (Req_send
         (nullish (option_map KeyObject publicKey) (_publicKey this))
         tx signers options connection)
      onResponse.

Definition sendAll (txWithSigners : list (Transaction * Signers))
    (opts : Options) (connection : option Connection)
    (publicKey : option PublicKey)
  : M (list Response) :=
  throw (Error "sendAll not implemented").

(** [cmn.simulate] is handed the key, the request manager and the
    connection; the call is recorded with these arguments. *)
Definition simulate (tx : Transaction) (signers : Signers)
    (commitment : Commitment) (connection : option Connection)
    (publicKey : option PublicKey)
    (onConnect : Settled ConnectResult) (onResponse : Settled Response)
  : M Response :=
  this <- get ;;
  when (negb (truthy (_publicKey this))) (connect onConnect) ;;
  this <- get ;;
  if negb (truthy (_publicKey this)) then throw (Error "wallet not connected")
  else
    tell (CmnSimulate
            (nullish (option_map KeyObject publicKey) (_publicKey this))
            (_requestManager this)
            (match connection with
             | Some c => c
             | None => _connection this
             end)
            tx signers commitment) ;;
    await onResponse.

Definition signTransaction (tx : Transaction) (publicKey : option PublicKey)
    (connection : option Connection)
    (onConnect : Settled ConnectResult) (onResponse : Settled Response)
  : M Response :=
  this <- get ;;
  when (negb (truthy (_publicKey this))) (connect onConnect) ;;
  this <- get ;;
  if negb (truthy (_publicKey this)) then throw (Error "wallet not connected")
  else
    client_call
      (Req_signTransaction
         (nullish (option_map KeyObject publicKey) (_publicKey this))
         tx connection)
      onResponse.

Definition signAllTransactions (txs : list Transaction)
    (publicKey : option PublicKey) (connection : option Connection)
    (onConnect : Settled ConnectResult) (onResponse : Settled Response)
  : M Response :=
  this <- get ;;
  when (negb (truthy (_publicKey this))) (connect onConnect) ;;
  this <- get ;;
  if negb (truthy (_publicKey this)) then throw (Error "wallet not connected")
  else
    client_call
      (Req_signAllTransactions
         (nullish (option_map KeyObject publicKey) (_publicKey this))
         txs connection)
      onResponse.

Definition prepareSolanaOffchainMessage (message : Bytes)
    (encoding : option string) (maxLength : option nat)
    (onResponse : Settled Response)
  : M Response :=
  client_call
    (Req_prepareSolanaOffchainMessage message
       (match encoding with Some e => e | None => "UTF-8" end)
       (match maxLength with Some n => n | None => 1212 end))
    onResponse.

Definition signMessage (msg : Bytes) (publicKey : option PublicKey)
    (onConnect : Settled ConnectResult) (onResponse : Settled Response)
  : M Response :=
  this <- get ;;
  when (negb (truthy (_publicKey this))) (connect onConnect) ;;
  this <- get ;;
  if negb (truthy (_publicKey this)) then throw (Error "wallet not connected")
  else
    client_call
      (Req_signMessage
         (nullish (option_map KeyObject publicKey) (_publicKey this))
         msg)
      onResponse.

(** The getters. *)
Definition isBackpack (this : Provider) : bool := _isBackpack this.
Definition isConnected (this : Provider) : bool := _isConnected this.
Definition isXnft (this : Provider) : bool := _isXnft this.
Definition publicKey (this : Provider) : option KeyValue := _publicKey this.
Definition connection (this : Provider) : Connection := _connection this.


(** ** Calls and runs *)

(** The six methods that check for an account first, with their
    arguments. *)
Inductive Guarded : Type :=
| G_sendAndConfirm (tx : Transaction) (signers : Signers) (options : Options)
    (connection : option Connection) (publicKey : option PublicKey)
| G_send (tx : Transaction) (signers : Signers) (options : Options)
    (connection : option Connection) (publicKey : option PublicKey)
| G_simulate (tx : Transaction) (signers : Signers) (commitment : Commitment)
    (connection : option Connection) (publicKey : option PublicKey)
| G_signTransaction (tx : Transaction) (publicKey : option PublicKey)
    (connection : option Connection)
| G_signAllTransactions (txs : list Transaction)
    (publicKey : option PublicKey) (connection : option Connection)
| G_signMessage (msg : Bytes) (publicKey : option PublicKey).

Definition guarded (g : Guarded)
    (onConnect : Settled ConnectResult) (onResponse : Settled Response)
  : M Response :=
  match g with
  | G_sendAndConfirm tx signers options connection publicKey =>
      sendAndConfirm tx signers options connection publicKey
        onConnect onResponse
  | G_send tx signers options connection publicKey =>
      send tx signers options connection publicKey onConnect onResponse
  | G_simulate tx signers commitment connection publicKey =>
      simulate tx signers commitment connection publicKey
        onConnect onResponse
  | G_signTransaction tx publicKey connection =>
      signTransaction tx publicKey connection onConnect onResponse
  | G_signAllTransactions txs publicKey connection =>
      signAllTransactions txs publicKey connection onConnect onResponse
  | G_signMessage msg publicKey =>
      signMessage msg publicKey onConnect onResponse
  end.

(** The [publicKey] argument of the call. *)
Definition supplied_key (g : Guarded) : option PublicKey :=
  match g with
  | G_sendAndConfirm _ _ _ _ publicKey => publicKey
  | G_send _ _ _ _ publicKey => publicKey
  | G_simulate _ _ _ _ publicKey => publicKey
  | G_signTransaction _ publicKey _ => publicKey
  | G_signAllTransactions _ publicKey _ => publicKey
  | G_signMessage _ publicKey => publicKey
  end.

(** A call of a public method, with the way its promises settle. *)
Inductive Call : Type :=
| Call_connect (onConnect : Settled ConnectResult)
| Call_disconnect (onDisconnect : Settled unit)
| Call_openXnft (xnftAddress : string) (onRequest : Settled unit)
| Call_guarded (g : Guarded) (onConnect : Settled ConnectResult)
    (onResponse : Settled Response)
| Call_sendAll (txWithSigners : list (Transaction * Signers))
    (opts : Options) (connection : option Connection)
    (publicKey : option PublicKey)
| Call_prepareSolanaOffchainMessage (message : Bytes)
    (encoding : option string) (maxLength : option nat)
    (onResponse : Settled Response).

(** The caller receives the value or the exception; the provider and the
    effects are what remains. *)
Definition settle {A : Type} (m : M A) : M unit :=
  fun this =>
    match m this with
    | mkOutcome _ this' t => mkOutcome (Normal tt) this' t
    end.

Definition call (c : Call) : M unit :=
  match c with
  | Call_connect onConnect => settle (connect onConnect)
  | Call_disconnect onDisconnect => settle (disconnect onDisconnect)
  | Call_openXnft xnftAddress onRequest =>
      settle (openXnft xnftAddress onRequest)
  | Call_guarded g onConnect onResponse =>
      settle (guarded g onConnect onResponse)
  | Call_sendAll txWithSigners opts connection publicKey =>
      settle (sendAll txWithSigners opts connection publicKey)
  | Call_prepareSolanaOffchainMessage message encoding maxLength onResponse =>
      settle (prepareSolanaOffchainMessage message encoding maxLength
                onResponse)
  end.

(** What happens to a provider: a message arrives at the window, or the
    page calls a method. *)
Inductive Action : Type :=
| Message (event : Event)
| Invoke (c : Call).

Definition act (a : Action) : M unit :=
  match a with
  | Message event => listener event
  | Invoke c => call c
  end.

Fixpoint run (actions : list Action) : M unit :=
  match actions with
  | [] => ret tt
  | a :: rest => act a ;; run rest
  end.

(** ** Reading a trace *)

(** Every execution of [connect] leaves exactly one of two marks: the
    warning of its early return, or the connect request to the client. *)
Definition connect_mark (e : Effect) : bool :=
  match e with
  | ConsoleWarn message => String.eqb message "provider already connected"
  | ClientCall _ Req_connect => true
  | _ => false
  end.

Definition connect_attempts (t : list Effect) : nat :=
  length (filter connect_mark t).

(** The account key carried by an effect that hands one of the guarded
    operations over. *)
Definition operation_key (e : Effect) : list (option KeyValue) :=
  match e with
  | ClientCall _ (Req_sendAndConfirm k _ _ _ _) => [k]
  | ClientCall _ (Req_send k _ _ _ _) => [k]
  | ClientCall _ (Req_signTransaction k _ _) => [k]
  | ClientCall _ (Req_signAllTransactions k _ _) => [k]
  | ClientCall _ (Req_signMessage k _) => [k]
  | CmnSimulate k _ _ _ _ _ => [k]
  | _ => []
  end.

Definition dispatched_keys (t : list Effect) : list (option KeyValue) :=
  flat_map operation_key t.

(** The connection an effect that hands over a guarded operation goes
    through: the one the client is bound to, or the one given to
    [cmn.simulate]. *)
Definition operation_connection (e : Effect) : list Connection :=
  match e with
  | ClientCall client (Req_sendAndConfirm _ _ _ _ _) =>
      [client_connection client]
  | ClientCall client (Req_send _ _ _ _ _) => [client_connection client]
  | ClientCall client (Req_signTransaction _ _ _) =>
      [client_connection client]
  | ClientCall client (Req_signAllTransactions _ _ _) =>
      [client_connection client]
  | ClientCall client (Req_signMessage _ _) => [client_connection client]
  | CmnSimulate _ _ connection _ _ _ => [connection]
  | _ => []
  end.

Definition dispatched_connections (t : list Effect) : list Connection :=
  flat_map operation_connection t.

(** Effects the notification router produces. *)
Definition routed (e : Effect) : bool :=
  match e with
  | Emit _ _ => true
  | LoggerDebug _ _ => true
  | Uncaught _ => true
  | _ => false
  end.

Definition is_emit (e : Effect) : bool :=
  match e with
  | Emit _ _ => true
  | _ => false
  end.

(** What leaves the provider for the trusted side, the request managers or
    the console: every effect that is not one of the router's. *)
Definition outgoing (t : list Effect) : list Effect :=
  filter (fun e => negb (routed e)) t.

(** The effect by which a guarded method hands its operation over, from
    the provider as it is at that moment. *)
Definition handover (g : Guarded) (this : Provider) : Effect :=
  let key :=
    nullish (option_map KeyObject (supplied_key g)) (_publicKey this) in
  match g with
  | G_sendAndConfirm tx signers options connection _ =>
      ClientCall (_secureSolanaClient this)
        (Req_sendAndConfirm key tx signers options connection)
  | G_send tx signers options connection _ =>
      ClientCall (_secureSolanaClient this)
        (Req_send key tx signers options connection)
  | G_simulate tx signers commitment connection _ =>
      CmnSimulate key (_requestManager this)
        (match connection with
         | Some c => c
         | None => _connection this
         end)
        tx signers commitment
  | G_signTransaction tx _ connection =>
      ClientCall (_secureSolanaClient this)
        (Req_signTransaction key tx connection)
  | G_signAllTransactions txs _ connection =>
      ClientCall (_secureSolanaClient this)
        (Req_signAllTransactions key txs connection)
  | G_signMessage msg _ =>
      ClientCall (_secureSolanaClient this) (Req_signMessage key msg)
  end.

(** ** The providers the methods leave *)

(** The provider [#connect] leaves when [new PublicKey] accepts the key. *)
Definition bound (publicKey connectionUrl : option string) (this : Provider)
  : Provider :=
  let connection :=
    BackgroundSolanaConnection_new (_connectionRequestManager this)
      connectionUrl in
  set_secureSolanaClient
    (SolanaClient_new (_secureClientSender this) connection)
    (set_connection connection
       (set_publicKey (Some (KeyObject (PublicKey_new publicKey)))
          (set_isConnected true this))).

(** The provider [disconnect()] leaves once the request has resolved. *)
Definition cleared (this : Provider) : Provider :=
  set_publicKey None
    (set_isConnected false
       (set_secureSolanaClient
          (SolanaClient_new (_secureClientSender this) defaultConnection)
          (set_connection defaultConnection this))).

(** ** Session events, read off a message *)

(** The message has a valid origin and the tag of the extension's or the
    plugin host's notification channel. *)
Definition accepted (event : Event) : bool :=
  isValidEventOrigin event &&
  match type event with
  | CHANNEL_SOLANA_NOTIFICATION => true
  | CHANNEL_PLUGIN_NOTIFICATION => true
  | _ => false
  end.

(** The terminal session event a message announces as the specification
    counts them: connected, from the extension or from the plugin host
    ([Some true]), or disconnected ([Some false]). *)
Definition stated_session_event (event : Event) : option bool :=
  if accepted event then
    match name (detail event) with
    | NOTIFICATION_SOLANA_CONNECTED => Some true
    | PLUGIN_NOTIFICATION_CONNECT => Some true
    | NOTIFICATION_SOLANA_DISCONNECTED => Some false
    | _ => None
    end
  else None.

(** The messages that decide [#isConnected]: a disconnected notification,
    and a plugin-connect notification whose payload has the [publicKeys]
    and [connectionUrls] tables. *)
Definition session_event (event : Event) : option bool :=
  if accepted event then
    match name (detail event) with
    | NOTIFICATION_SOLANA_DISCONNECTED => Some false
    | PLUGIN_NOTIFICATION_CONNECT =>
        match data (detail event) with
        | Some d =>
            match Data.publicKeys d, Data.connectionUrls d with
            | Some _, Some _ => Some true
            | _, _ => None
            end
        | None => None
        end
    | _ => None
    end
  else None.

(** The answer of [f] on the latest element of [l], in delivery order, on
    which it answers. *)
Fixpoint most_recent {A B : Type} (f : A -> option B) (l : list A)
  : option B :=
  match l with
  | [] => None
  | a :: rest =>
      match most_recent f rest with
      | Some b => Some b
      | None => f a
      end
  end.

End ProviderSolanaInjection.

(** ** [packages/common/src/utils.ts]

    A string is the sequence of its code units.  The functions below look
    only at NUL, at [.] and at ASCII prefixes, and copy everything else. *)

Module Utils.

(** [uri.replace(/\0/g, "")] *)
Fixpoint strip_nul (s : string) : string :=
  match s with
  | EmptyString => EmptyString
  | String c rest =>
      if Ascii.eqb c Ascii.zero then strip_nul rest
      else String c (strip_nul rest)
  end.

(** What is left of [s] after its first [n] characters. *)
Fixpoint drop (n : nat) (s : string) : string :=
  match n, s with
  | O, _ => s
  | S n', String _ rest => drop n' rest
  | S _, EmptyString => EmptyString
  end.

(** [s.slice(0, n)] *)
Fixpoint take (n : nat) (s : string) : string :=
  match n, s with
  | S n', String c rest => String c (take n' rest)
  | _, _ => EmptyString
  end.

(** [s.replace(pattern, replacement)] with a string pattern: the first
    occurrence is replaced.  The replacements used here hold no [$]. *)
Fixpoint replace (pattern replacement s : string) : string :=
  match s with
  | EmptyString =>
      if String.prefix pattern EmptyString then replacement else EmptyString
  | String c rest =>
      if String.prefix pattern s
      then String.append replacement (drop (String.length pattern) s)
      else String c (replace pattern replacement rest)
  end.

(** Truthiness of a string: [""] is falsy. *)
Definition nonempty (s : string) : bool :=
  match s with
  | EmptyString => false
  | String _ _ => true
  end.

(** [options.cached] is an optional boolean; [options] defaults to [{}]. *)
Definition externalResourceUri (uri : string) (cached : option bool)
  : string :=
  let uri := if nonempty uri then strip_nul uri else uri in
  if nonempty uri && String.prefix "ipfs://" uri then
    replace "ipfs://" "https://cloudflare-ipfs.com/ipfs/" uri
  else if nonempty uri && String.prefix "ar://" uri then
    replace "ar://" "https://arweave.net/" uri
  else
    match cached with
    | Some true => String.append "https://swr.xnfts.dev/1hr/" uri
    | _ => uri
    end.

(** [url.startsWith("http://") || url.startsWith("https://")]; the proxy
    host is a constant of [./constants]. *)
Definition proxyImageUrl (IMAGE_PROXY_URL : string) (url : string) : string :=
  if nonempty url &&
     (String.prefix "http://" url || String.prefix "https://" url)
  then String.append IMAGE_PROXY_URL
         (String.append "/insecure/rs:fit:400:400:0:0/plain/" url)
  else url.

(** [s.split(".")] *)
Fixpoint split_dot (s : string) : list string :=
  match s with
  | EmptyString => [EmptyString]
  | String c rest =>
      if Ascii.eqb c "."%char then EmptyString :: split_dot rest
      else
        match split_dot rest with
        | first :: others => String c first :: others
        | [] => [String c EmptyString]
        end
  end.

(** The body of the [try] in [toDisplayBalance]: with no [.] in the string
    [split(".")[1]] is [undefined], [slice] throws and the [catch] keeps
    the string as it was. *)
Definition truncate_fraction (displayBalance : string) : string :=
  match split_dot displayBalance with
  | whole :: fraction :: _ =>
      String.append whole (String.append "." (take 5 fraction))
  | _ => displayBalance
  end.

(** What the ethers and Solana libraries and the encoders do, as far as
    this file relies on it.  A constructor that throws gives [None]. *)
Record Keypair : Type := mkKeypair {
  keypair_secretKey : string;
  keypair_publicKey : string
}.

Record Wallet : Type := mkWallet {
  wallet_privateKey : string;
  wallet_address : string
}.

Class Sdk : Type := mkSdk {
  formatUnits : string -> string -> string;
  commify : string -> string;
  Keypair_fromJSON : string -> option Keypair;
  Keypair_fromBs58 : string -> option Keypair;
  Wallet_new : string -> option Wallet;
  toHex : string -> string
}.

Section WithSdk.

Context {sdk : Sdk}.

(** [truncate] defaults to [true]. *)
Definition toDisplayBalance (nativeBalance decimals : string)
    (truncate : option bool) : string :=
  let displayBalance := formatUnits nativeBalance decimals in
  let displayBalance :=
    match truncate with
    | Some false => displayBalance
    | _ => truncate_fraction displayBalance
    end in
  commify displayBalance.

Record ValidatedKey : Type := mkValidatedKey {
  privateKey : string;
  validated_publicKey : string
}.

(** [keyring[blockchain]] is an object whose values are arrays of named
    keys; only their [publicKey] is read.  A blockchain the keyring has no
    entry for reads as [undefined]. *)
Definition WalletPublicKeys : Type :=
  Blockchain -> option (list (list string)).

(** [xs.includes(x)] *)
Definition includes (xs : list string) (x : string) : bool :=
  existsb (String.eqb x) xs.

Definition validatePrivateKey (blockchain : Blockchain) (secretKey : string)
    (keyring : WalletPublicKeys) : Completion ValidatedKey :=
  match keyring blockchain with
  | None => Throw (TypeError "Cannot convert undefined or null to object")
  | Some groups =>
      let existingPublicKeys := concat groups in
      match blockchain with
      | SOLANA =>
          let keypair :=
            match Keypair_fromJSON secretKey with
            | Some k => Some k
            | None => Keypair_fromBs58 secretKey
            end in
          match keypair with
          | None => Throw (Error "Invalid private key")
          | Some keypair =>
              if includes existingPublicKeys (keypair_publicKey keypair)
              then Throw (Error "Key already exists")
              else Normal (mkValidatedKey (toHex (keypair_secretKey keypair))
                             (keypair_publicKey keypair))
          end
      | ETHEREUM =>
          match Wallet_new secretKey with
          | None => Throw (Error "Invalid private key")
          | Some wallet =>
              if includes existingPublicKeys (wallet_address wallet)
              then Throw (Error "Key already exists")
              else Normal (mkValidatedKey (wallet_privateKey wallet)
                             (wallet_address wallet))
          end
      | OtherBlockchain _ =>
          Throw
            (Error "secret key validation not implemented for blockchain")
      end
  end.

End WithSdk.

End Utils.

(** ** A page to run the provider in, and sample messages *)

(** What [@solana/web3.js] does with the arguments of its constructors:
    [new PublicKey(value)] wants a base58 string that decodes to 32 bytes,
    [new Connection(endpoint)] a string that starts with [http:] or
    [https:]. *)
Definition base58_alphabet : string :=
  "123456789ABCDEFGHJKLMNPQRSTUVWXYZabcdefghijkmnopqrstuvwxyz".

Fixpoint base58_digit (c : ascii) (alphabet : string) (i : N) : option N :=
  match alphabet with
  | EmptyString => None
  | String a rest =>
      if Ascii.eqb c a then Some i else base58_digit c rest (N.succ i)
  end.

Fixpoint base58_number (s : string) (acc : N) : option N :=
  match s with
  | EmptyString => Some acc
  | String c rest =>
      match base58_digit c base58_alphabet 0%N with
      | Some d => base58_number rest (acc * 58 + d)%N
      | None => None
      end
  end.

(** Each leading [1] of the text is a zero byte of the decoded key. *)
Fixpoint leading_ones (s : string) : nat :=
  match s with
  | String c rest => if Ascii.eqb c "1"%char then S (leading_ones rest) else O
  | EmptyString => O
  end.

Definition byte_length (n : N) : nat := N.to_nat ((N.size n + 7) / 8).

Definition web3_PublicKey_throws (value : option string) : option Exn :=
  match value with
  | None => Some (TypeError "Cannot read properties of undefined")
  | Some text =>
      match base58_number text 0%N with
      | None => Some (Error "Non-base58 character")
      | Some n =>
          if Nat.eqb (leading_ones text + byte_length n) 32 then None
          else Some (Error "Invalid public key input")
      end
  end.

Definition web3_Connection_throws (endpoint : option string) : option Exn :=
  match endpoint with
  | Some url =>
      if String.prefix "http:" url || String.prefix "https:" url then None
      else
        Some (TypeError "Endpoint URL must start with `http:` or `https:`.")
  | None =>
      Some (TypeError "Endpoint URL must start with `http:` or `https:`.")
  end.

Definition page : Host :=
  mkHost (fun event => String.eqb (origin event) "https://dapp.example")
    None "https://api.mainnet-beta.solana.com" "dapp" "https://dapp.example"
    web3_PublicKey_throws web3_Connection_throws eq_refl.

Definition notification (c : Channel) (n : NotificationName)
    (d : option Data.t) : Event :=
  mkEvent "https://dapp.example" c (mkDetail n d).

(** An object indexed by blockchain that holds a Solana entry only. *)
Definition solana_only (value : string) : Blockchain -> option string :=
  fun chain =>
    match chain with
    | SOLANA => Some value
    | _ => None
    end.

(** The page's provider after [connect()] resolved with an account and an
    endpoint. *)
Definition connected_page : Provider :=
  after (@connect page
           (resolved (mkConnectResult "11111111111111111111111111111111" "https://rpc.old.example"))
           (@constructor page)).

(** The page's provider after the plugin host's connect notification. *)
Definition embedded_page : Provider :=
  after (@listener page
           (notification CHANNEL_PLUGIN_NOTIFICATION
              PLUGIN_NOTIFICATION_CONNECT
              (Some (Data.make None None None None
                       (Some (solana_only "11111111111111111111111111111111"))
                       (Some (solana_only "https://rpc.old.example")))))
           (@constructor page)).

(** The embedded provider after the plugin host's key update arrived with
    no key in its payload: connected, and no account. *)
Definition keyless_page : Provider :=
  after (@listener page
           (notification CHANNEL_PLUGIN_NOTIFICATION
              PLUGIN_NOTIFICATION_SOLANA_PUBLIC_KEY_UPDATED
              (Some (Data.make None None None None None None)))
           embedded_page).

(** The plugin host's connect notification for the system program's key,
    which [new PublicKey] accepts. *)
Definition plugin_connect_payload : Data.t :=
  Data.make None None None None (Some (solana_only "11111111111111111111111111111111"))
    (Some (solana_only "https://rpc.old.example")).

Definition plugin_connect_message : Event :=
  notification CHANNEL_PLUGIN_NOTIFICATION PLUGIN_NOTIFICATION_CONNECT
    (Some plugin_connect_payload).

(** The same notification with a Solana entry that is base58 and decodes
    to three bytes: [new PublicKey] throws on it. *)
Definition malformed_plugin_connect_payload : Data.t :=
  Data.make None None None None (Some (solana_only "Key1"))
    (Some (solana_only "https://rpc.old.example")).

Definition malformed_plugin_connect_message : Event :=
  notification CHANNEL_PLUGIN_NOTIFICATION PLUGIN_NOTIFICATION_CONNECT
    (Some malformed_plugin_connect_payload).

(** An active-wallet update for Solana that names no wallet. *)
Definition walletless_payload : Data.t :=
  Data.make (Some SOLANA) None None None None None.

(** An endpoint update for Solana whose endpoint is not an [http:] or
    [https:] address. *)
Definition websocket_payload : Data.t :=
  Data.make (Some SOLANA) (Some "wss://rpc.new.example") None None None None.

(** A payload for Solana that names an endpoint, a wallet and a key. *)
Definition solana_payload : Data.t :=
  Data.make (Some SOLANA) (Some "https://rpc.new.example") (Some "TokenkegQfeZyiNwAJbNbGKPFXCWuBvf9Ss623VQ5DA")
    (Some "SysvarRent111111111111111111111111111111111") None None.

(** Libraries that accept one JSON key, one base58 key and one Ethereum
    key. *)
Definition sample_sdk : Utils.Sdk :=
  Utils.mkSdk
    (fun nativeBalance _ => nativeBalance)
    (fun displayBalance => displayBalance)
    (fun secret =>
       if String.eqb secret "[1,2,3]"
       then Some (Utils.mkKeypair "010203" "KeyA") else None)
    (fun secret =>
       if String.eqb secret "3yZe7d"
       then Some (Utils.mkKeypair "0a0b0c" "KeyB") else None)
    (fun secret =>
       if String.eqb secret "0xabc"
       then Some (Utils.mkWallet "0xabc" "0xAddress") else None)
    (fun bytes => bytes).

(** A keyring with Solana keys [KeyA] and [KeyC] and no Ethereum entry. *)
Definition sample_keyring : Utils.WalletPublicKeys :=
  fun blockchain =>
    match blockchain with
    | SOLANA => Some [["KeyC"]; ["KeyA"]]
    | OtherBlockchain _ => Some []
    | ETHEREUM => None
    end.

(** ** Vocabulary of the statements *)

(** [keeps P m]: running [m] from a provider satisfying [P] ends in one
    satisfying [P], however [m] completes. *)
Definition keeps {A : Type} (P : Provider -> Prop) (m : M A) : Prop :=
  forall this, P this -> P (after (m this)).

(** [only Q m]: every effect of [m] satisfies [Q]. *)
Definition only {A : Type} (Q : Effect -> bool) (m : M A) : Prop :=
  forall this, forallb Q (trace (m this)) = true.

(** The provider is in the plugin context. *)
Definition embedded (this : Provider) : Prop := _isXnft this = true.

(** No character of [s] is NUL. *)
Fixpoint nul_free (s : string) : bool :=
  match s with
  | EmptyString => true
  | String c rest => negb (Ascii.eqb c Ascii.zero) && nul_free rest
  end.

(** [s] holds no [.]. *)
Fixpoint dot_free (s : string) : bool :=
  match s with
  | EmptyString => true
  | String c rest => negb (Ascii.eqb c "."%char) && dot_free rest
  end.

(** [P] survives every assignment the methods make. *)
Definition stable (P : Provider -> Prop) : Prop :=
  forall this, P this ->
    (forall b, P (set_isConnected b this)) /\
    (forall k, P (set_publicKey k this)) /\
    (forall c, P (set_connection c this)) /\
    (forall c, P (set_secureSolanaClient c this)).

(** The notifications whose handlers assign a field of the provider. *)
Definition state_changing (n : NotificationName) : bool :=
  match n with
  | NOTIFICATION_SOLANA_DISCONNECTED => true
  | NOTIFICATION_CONNECTION_URL_UPDATED => true
  | NOTIFICATION_ACTIVE_WALLET_UPDATED => true
  | PLUGIN_NOTIFICATION_CONNECT => true
  | PLUGIN_NOTIFICATION_CONNECTION_URL_UPDATED => true
  | PLUGIN_NOTIFICATION_SOLANA_PUBLIC_KEY_UPDATED => true
  | _ => false
  end.

(** The origin handed to the trusted side says [xnft] exactly in the
    plugin context. *)
Definition origin_matches_context (this : Provider) : Prop :=
  context (_secureClientOrigin this) = xnft <-> _isXnft this = true.

(** The fields no statement of the class assigns after construction. *)
Definition wiring (this : Provider)
  : Options * RequestManager * RequestManager * RequestManager * bool
    * Sender :=
  (_options this, _backpackRequestManager this,
   _connectionRequestManager this, _requestManager this, _isBackpack this,
   _secureClientSender this).

(** The client is the one built over the provider's sender and its
    current connection. *)
Definition client_follows_connection (this : Provider) : Prop :=
  _secureSolanaClient this =
  SolanaClient_new (_secureClientSender this) (_connection this).

(** The messages an action brings to the window: the message itself, or
    those arriving while the promises of a call are pending. *)
Definition messages_of_call (c : Call) : list Event :=
  match c with
  | Call_connect onConnect => during onConnect
  | Call_disconnect onDisconnect => during onDisconnect
  | Call_openXnft _ onRequest => during onRequest
  | Call_guarded _ onConnect onResponse =>
      during onConnect ++ during onResponse
  | Call_sendAll _ _ _ _ => []
  | Call_prepareSolanaOffchainMessage _ _ _ onResponse => during onResponse
  end.

Definition messages_of (a : Action) : list Event :=
  match a with
  | Message event => [event]
  | Invoke c => messages_of_call c
  end.

(** The name of the extension's endpoint update. *)
Definition extension_endpoint_update (event : Event) : bool :=
  match name (detail event) with
  | NOTIFICATION_CONNECTION_URL_UPDATED => true
  | _ => false
  end.

(** None of the messages is the extension's endpoint update. *)
Definition calm (events : list Event) : bool :=
  forallb (fun event => negb (extension_endpoint_update event)) events.

(** ** Preservation through the monad *)

Section Monad.

Variables A B : Type.
Variable P : Provider -> Prop.
Variable Q : Effect -> bool.

Lemma keeps_ret (a : A) : keeps P (ret a).
Proof. intros this H. exact H. Qed.

Lemma keeps_throw (e : Exn) : keeps P (@throw A e).
Proof. intros this H. exact H. Qed.

Lemma keeps_get : keeps P get.
Proof. intros this H. exact H. Qed.

Lemma keeps_tell (e : Effect) : keeps P (tell e).
Proof. intros this H. exact H. Qed.

Lemma keeps_modify (f : Provider -> Provider) :
  (forall this, P this -> P (f this)) -> keeps P (modify f).
Proof. intros Hf this H. apply Hf, H. Qed.

Lemma keeps_bind (m : M A) (k : A -> M B) :
  keeps P m -> (forall a, keeps P (k a)) -> keeps P (bind m k).
Proof.
  intros Hm Hk this H. unfold bind.
  specialize (Hm this H).
  destruct (m this) as [[a|e] s t]; cbn in *.
  - specialize (Hk a s Hm). destruct (k a s). exact Hk.
  - exact Hm.
Qed.

Lemma only_ret (a : A) : only Q (ret a).
Proof. intros this. reflexivity. Qed.

Lemma only_throw (e : Exn) : only Q (@throw A e).
Proof. intros this. reflexivity. Qed.

Lemma only_get : only Q get.
Proof. intros this. reflexivity. Qed.

Lemma only_modify (f : Provider -> Provider) : only Q (modify f).
Proof. intros this. reflexivity. Qed.

Lemma only_tell (e : Effect) : Q e = true -> only Q (tell e).
Proof. intros He this. cbn. rewrite He. reflexivity. Qed.

Lemma only_bind (m : M A) (k : A -> M B) :
  only Q m -> (forall a, only Q (k a)) -> only Q (bind m k).
Proof.
  intros Hm Hk this. unfold bind.
  specialize (Hm this).
  destruct (m this) as [[a|e] s t]; cbn in *.
  - specialize (Hk a s). destruct (k a s) as [c s' t']; cbn in *.
    rewrite forallb_app, Hm. exact Hk.
  - exact Hm.
Qed.

Lemma bind_normal (m : M A) (k : A -> M B) (this : Provider) (a : A) :
  completion (m this) = Normal a ->
  bind m k this =
  mkOutcome (completion (k a (after (m this))))
    (after (k a (after (m this))))
    (trace (m this) ++ trace (k a (after (m this)))).
Proof.
  intros H. unfold bind. destruct (m this) as [c s t]; cbn in *.
  subst c. destruct (k a s); reflexivity.
Qed.

Lemma bind_throw (m : M A) (k : A -> M B) (this : Provider) (e : Exn) :
  completion (m this) = Throw e ->
  bind m k this = mkOutcome (Throw e) (after (m this)) (trace (m this)).
Proof.
  intros H. unfold bind. destruct (m this) as [c s t]; cbn in *.
  subst c. reflexivity.
Qed.

End Monad.

Create HintDb method.

#[local] Hint Resolve keeps_ret keeps_throw keeps_get keeps_tell
  only_ret only_throw only_get only_modify : method.

(** Splits a goal about a method along its binds and branches. *)
Ltac step_method :=
  match goal with
  | |- keeps _ (bind _ _) => apply keeps_bind; [ | intro ]
  | |- only _ (bind _ _) => apply only_bind; [ | intro ]
  | |- keeps _ (modify _) => apply keeps_modify; intros ? ?
  | |- only _ (tell _) => apply only_tell; reflexivity
  | |- keeps _ (when ?c _) => unfold when; destruct c
  | |- only _ (when ?c _) => unfold when; destruct c
  | |- keeps _ (deref _ ?o) => unfold deref; destruct o
  | |- only _ (deref _ ?o) => unfold deref; destruct o
  | |- keeps _ (if ?c then _ else _) => destruct c
  | |- only _ (if ?c then _ else _) => destruct c
  | |- keeps _ (match ?x with _ => _ end) => destruct x
  | |- only _ (match ?x with _ => _ end) => destruct x
  | |- _ => solve [ auto with method ]
  end.

Ltac walk_method := repeat step_method.

(** ** The notification router *)

Ltac unfold_handlers :=
  unfold handleNotification, handleNotificationConnected,
    handleNotificationDisconnected, handleNotificationConnectionUrlUpdated,
    handleNotificationActiveWalletUpdated, handlePluginConnect,
    handlePluginMount, handlePluginUpdateMetadata, handlePluginUnmount,
    handlePluginConnectionUrlUpdated, handlePluginPublicKeyUpdated,
    connect_, new_PublicKey, new_Connection, emit, console_warn.

Section Router.

Context {host : Host}.

Lemma Blockchain_eqb_eq (a b : Blockchain) :
  Blockchain_eqb a b = true <-> a = b.
Proof.
  destruct a, b; cbn; split; intros H;
    try reflexivity; try discriminate; try congruence.
  - apply String.eqb_eq in H. congruence.
  - inversion H. apply String.eqb_refl.
Qed.

Lemma not_SOLANA_other (chain : Blockchain) :
  chain <> SOLANA -> not_SOLANA (Some chain) = true.
Proof.
  intros H. cbn. destruct (Blockchain_eqb chain SOLANA) eqn:E.
  - apply Blockchain_eqb_eq in E. contradiction.
  - reflexivity.
Qed.

Lemma foreign_channel_true (c : Channel) :
  foreign_channel c = true <->
  c <> CHANNEL_SOLANA_NOTIFICATION /\ c <> CHANNEL_PLUGIN_NOTIFICATION.
Proof.
  destruct c; cbn; split; intros H;
    try (split; discriminate); try reflexivity; try discriminate;
    destruct H as [H1 H2]; congruence.
Qed.

Lemma handleNotification_routed (event : Event) :
  only routed (handleNotification event).
Proof. unfold_handlers. walk_method. Qed.

Lemma listener_routed (event : Event) : only routed (listener event).
Proof.
  intros this. unfold listener.
  pose proof (handleNotification_routed event this) as H.
  destruct (handleNotification event this) as [[[]|e] s t]; cbn in *.
  - exact H.
  - rewrite forallb_app, H. reflexivity.
Qed.

Lemma listener_returns (event : Event) (this : Provider) :
  completion (listener event this) = Normal tt.
Proof.
  unfold listener.
  destruct (handleNotification event this) as [[[]|e] s t]; reflexivity.
Qed.

Lemma listener_after (event : Event) (this : Provider) :
  after (listener event this) = after (handleNotification event this).
Proof.
  unfold listener.
  destruct (handleNotification event this) as [[[]|e] s t]; reflexivity.
Qed.

Lemma listener_keeps (P : Provider -> Prop) (event : Event) :
  keeps P (handleNotification event) -> keeps P (listener event).
Proof. intros H this HP. rewrite listener_after. apply H, HP. Qed.

Lemma deliver_cons (event : Event) (rest : list Event) (this : Provider) :
  deliver (event :: rest) this =
  mkOutcome (completion (deliver rest (after (listener event this))))
    (after (deliver rest (after (listener event this))))
    (trace (listener event this) ++
     trace (deliver rest (after (listener event this)))).
Proof. cbn [deliver]. apply bind_normal with (a := tt), listener_returns. Qed.

Lemma deliver_returns (events : list Event) (this : Provider) :
  completion (deliver events this) = Normal tt.
Proof.
  revert this. induction events as [|event rest IH]; intros this.
  - reflexivity.
  - rewrite deliver_cons. cbn. apply IH.
Qed.

Lemma deliver_routed (events : list Event) : only routed (deliver events).
Proof.
  induction events as [|event rest IH]; cbn [deliver].
  - apply only_ret.
  - apply only_bind; [ apply listener_routed | intros _; exact IH ].
Qed.

Lemma deliver_keeps (P : Provider -> Prop) (events : list Event) :
  (forall event, keeps P (handleNotification event)) ->
  keeps P (deliver events).
Proof.
  intros H. induction events as [|event rest IH]; cbn [deliver].
  - apply keeps_ret.
  - apply keeps_bind; [ apply listener_keeps, H | intros _; exact IH ].
Qed.

(** No handler assigns [#isXnft] anything but [true]. *)
Lemma handleNotification_keeps_isXnft (event : Event) :
  keeps (fun this => _isXnft this = true) (handleNotification event).
Proof. unfold_handlers. walk_method; cbn; auto. Qed.

(** C6. A message whose origin is not valid, or whose channel tag is
    neither the extension-notification nor the plugin-notification channel,
    is dropped: the handler returns, the provider is as before and nothing
    is emitted or logged.  A message of an accepted channel whose event name
    is none of the recognised ones makes the handler throw
    [Error "unexpected notification <name>"]. *)
Theorem handleNotification_drops_or_throws (event : Event) (this : Provider) :
  ((isValidEventOrigin event = false \/
    (type event <> CHANNEL_SOLANA_NOTIFICATION /\
     type event <> CHANNEL_PLUGIN_NOTIFICATION)) ->
   handleNotification event this = mkOutcome (Normal tt) this []) /\
  (forall unexpected : string,
     isValidEventOrigin event = true ->
     (type event = CHANNEL_SOLANA_NOTIFICATION \/
      type event = CHANNEL_PLUGIN_NOTIFICATION) ->
     name (detail event) = OtherName unexpected ->
     handleNotification event this =
     mkOutcome (Throw (Error ("unexpected notification " ++ unexpected)))
       this [LoggerDebug "notification" event]).
Proof.
  split.
  - intros [Hbad | Hchan]; unfold handleNotification.
    + rewrite Hbad. reflexivity.
    + apply foreign_channel_true in Hchan. rewrite Hchan.
      destruct (isValidEventOrigin event); reflexivity.
  - intros unexpected Hok Hchan Hname. unfold handleNotification.
    rewrite Hok, Hname.
    destruct Hchan as [Hc | Hc]; rewrite Hc; reflexivity.
Qed.

(** C7. An endpoint-updated or account-updated notification whose payload
    names a blockchain other than Solana leaves the whole provider
    ([isConnected], [publicKey], [connection], the bound client and every
    other field) as it was, returns normally and emits no public event. *)
Theorem other_chain_update_ignored
    (event : Event) (this : Provider) (d : Data.t) (chain : Blockchain) :
  In (name (detail event))
     [NOTIFICATION_CONNECTION_URL_UPDATED;
      NOTIFICATION_ACTIVE_WALLET_UPDATED;
      PLUGIN_NOTIFICATION_CONNECTION_URL_UPDATED] ->
  data (detail event) = Some d ->
  Data.blockchain d = Some chain ->
  chain <> SOLANA ->
  after (handleNotification event this) = this /\
  completion (handleNotification event this) = Normal tt /\
  filter is_emit (trace (handleNotification event this)) = [].
Proof.
  intros Hname Hdata Hchain Hother.
  apply not_SOLANA_other in Hother. rewrite <- Hchain in Hother.
  unfold_handlers.
  destruct (isValidEventOrigin event); cbn; [ | auto ].
  destruct (foreign_channel (type event)); cbn; [ auto | ].
  cbn in Hname.
  destruct Hname as [Hn | [Hn | [Hn | []]]]; rewrite <- Hn;
    unfold bind, deref; rewrite Hdata; cbn; rewrite Hother; cbn; auto.
Qed.

End Router.

Lemma handleNotification_drops_or_throws_witness :
  let stray := mkEvent "https://evil.example" CHANNEL_SOLANA_NOTIFICATION
                 (mkDetail NOTIFICATION_SOLANA_DISCONNECTED None) in
  let unknown := notification CHANNEL_PLUGIN_NOTIFICATION
                   (OtherName "plugin-notification-v2") None in
  @handleNotification page stray (@constructor page) =
    mkOutcome (Normal tt) (@constructor page) [] /\
  @handleNotification page unknown (@constructor page) =
    mkOutcome
      (Throw (Error "unexpected notification plugin-notification-v2"))
      (@constructor page) [LoggerDebug "notification" unknown].
Proof.
  split.
  - apply (proj1 (@handleNotification_drops_or_throws page _ _)).
    left. reflexivity.
  - apply (proj2 (@handleNotification_drops_or_throws page _ _)
             "plugin-notification-v2");
      [ reflexivity | right; reflexivity | reflexivity ].
Defined.

Lemma other_chain_update_ignored_witness :
  let d := Data.make (Some ETHEREUM) (Some "https://eth.example") None None
             None None in
  let event := notification CHANNEL_SOLANA_NOTIFICATION
                 NOTIFICATION_CONNECTION_URL_UPDATED (Some d) in
  after (@handleNotification page event (@constructor page)) =
    @constructor page /\
  completion (@handleNotification page event (@constructor page)) =
    Normal tt /\
  filter is_emit (trace (@handleNotification page event (@constructor page)))
    = [].
Proof.
  apply (@other_chain_update_ignored page _ _
           (Data.make (Some ETHEREUM) (Some "https://eth.example") None None
              None None) ETHEREUM).
  - left. reflexivity.
  - reflexivity.
  - reflexivity.
  - discriminate.
Defined.

(** ** The context kind *)

Ltac unfold_methods :=
  unfold call, guarded, sendAndConfirm, send, sendAll, simulate,
    signTransaction, signAllTransactions, signMessage,
    prepareSolanaOffchainMessage, openXnft, disconnect, connect,
    client_call, await, connect_, new_PublicKey, emit, console_warn.

Section ContextKind.

Context {host : Host}.

Lemma deliver_keeps_isXnft (events : list Event) :
  keeps embedded (deliver events).
Proof. apply deliver_keeps, handleNotification_keeps_isXnft. Qed.

Lemma settle_keeps (A : Type) (P : Provider -> Prop) (m : M A) :
  keeps P m -> keeps P (settle m).
Proof.
  intros H this HP. unfold settle. specialize (H this HP).
  destruct (m this). exact H.
Qed.

Hint Resolve deliver_keeps_isXnft : method.

Lemma call_keeps_isXnft (c : Call) : keeps embedded (call c).
Proof.
  destruct c as [? | ? | ? ? | g ? ? | ? ? ? ? | ? ? ? ?];
    [ | | | destruct g | | ];
    cbn [call guarded]; apply settle_keeps;
    unfold_methods; walk_method; cbn; auto.
Qed.

Lemma act_keeps_isXnft (a : Action) : keeps embedded (act a).
Proof.
  destruct a as [event | c]; cbn [act].
  - apply listener_keeps, handleNotification_keeps_isXnft.
  - apply call_keeps_isXnft.
Qed.

(** C5. Once [isXnft] is [true], it is [true] after every sequence of
    delivered messages and method calls, however the promises the calls
    await are settled. *)
Theorem embedded_context_is_permanent
    (actions : list Action) (this : Provider) :
  isXnft this = true -> isXnft (after (run actions this)) = true.
Proof.
  unfold isXnft. revert this.
  induction actions as [|a rest IH]; intros this H; cbn [run].
  - exact H.
  - apply (@keeps_bind unit unit embedded (act a) (fun _ => run rest));
      [ apply act_keeps_isXnft | intros _ s Hs; apply IH, Hs | exact H ].
Qed.

End ContextKind.

Lemma embedded_context_is_permanent_witness :
  let tables := fun chain : Blockchain =>
    match chain with SOLANA => Some "11111111111111111111111111111111" | _ => None end in
  let plugin_connect := notification CHANNEL_PLUGIN_NOTIFICATION
    PLUGIN_NOTIFICATION_CONNECT
    (Some (Data.make None None None None (Some tables) (Some tables))) in
  let embedded := after (@listener page plugin_connect (@constructor page)) in
  let actions :=
    [ Invoke (Call_disconnect (resolved tt));
      Message (notification CHANNEL_SOLANA_NOTIFICATION
                 NOTIFICATION_SOLANA_DISCONNECTED None);
      Invoke (Call_connect (resolved (mkConnectResult "So11111111111111111111111111111111111111112" "https://rpc.example")));
      Invoke (Call_openXnft "Plugin" (resolved tt)) ] in
  isXnft (@constructor page) = false /\
  isXnft embedded = true /\
  isXnft (after (@run page actions embedded)) = true.
Proof.
  split; [ reflexivity | split; [ reflexivity | ] ].
  apply (@embedded_context_is_permanent page). reflexivity.
Defined.

(** ** The connected flag under notifications *)

Section ConnectedFlag.

Context {host : Host}.

Lemma handleNotification_isConnected (event : Event) (this : Provider) :
  _isConnected (after (handleNotification event this)) =
  match session_event event with
  | Some b => b
  | None => _isConnected this
  end.
Proof.
  unfold session_event, accepted. unfold_handlers.
  destruct (isValidEventOrigin event); cbn; [ | reflexivity ].
  destruct (type event); cbn; try reflexivity;
    destruct (name (detail event)); cbn; try reflexivity;
    unfold bind, deref;
    destruct (data (detail event)) as [d|]; cbn; try reflexivity;
    try (destruct (not_SOLANA (Data.blockchain d)); cbn;
         try destruct (Connection_throws _);
         try destruct (PublicKey_throws _); reflexivity);
    destruct (Data.publicKeys d); cbn; try reflexivity;
    destruct (Data.connectionUrls d); cbn; try reflexivity;
    destruct (PublicKey_throws _); reflexivity.
Qed.

(** C1, as the code has it.  After a sequence of messages is delivered in
    order, [isConnected] is [true] when the latest deciding message was a
    plugin-connect notification, [false] when it was a disconnected
    notification, and what it was before when there was none.  The
    extension's connected notification is not a deciding message: its
    handler only emits the public [connect] event. *)
Theorem isConnected_follows_session_events
    (events : list Event) (this : Provider) :
  isConnected (after (deliver events this)) =
  match most_recent session_event events with
  | Some b => b
  | None => isConnected this
  end.
Proof.
  unfold isConnected. revert this.
  induction events as [|event rest IH]; intros this.
  - reflexivity.
  - rewrite deliver_cons. cbn [after most_recent].
    rewrite IH, listener_after, handleNotification_isConnected.
    destruct (most_recent session_event rest); reflexivity.
Qed.

End ConnectedFlag.

(** C1, as stated, fails: the extension's connected notification is the
    most recent terminal session event, and [isConnected] stays [false]. *)
Lemma connected_notification_leaves_isConnected_false :
  let event := notification CHANNEL_SOLANA_NOTIFICATION
    NOTIFICATION_SOLANA_CONNECTED
    (Some (Data.make None (Some "https://rpc.example") None (Some "11111111111111111111111111111111")
             None None)) in
  most_recent (@stated_session_event page) [event] = Some true /\
  isConnected (after (@deliver page [event] (@constructor page))) = false.
Proof. split; reflexivity. Qed.

(** ** The methods, equation by equation *)

Lemma bind_get (B : Type) (k : Provider -> M B) (this : Provider) :
  bind get k this = k this this.
Proof. unfold bind, get. destruct (k this this). reflexivity. Qed.

Lemma bind_tell (B : Type) (e : Effect) (k : unit -> M B) (this : Provider) :
  bind (tell e) k this =
  mkOutcome (completion (k tt this)) (after (k tt this))
    (e :: trace (k tt this)).
Proof. unfold bind, tell. destruct (k tt this). reflexivity. Qed.

Lemma routed_is_silent (t : list Effect) :
  forallb routed t = true ->
  connect_attempts t = 0 /\ dispatched_keys t = [] /\
  dispatched_connections t = [].
Proof.
  unfold connect_attempts, dispatched_keys, dispatched_connections.
  induction t as [|e t IH]; cbn; intros H.
  - auto.
  - apply andb_prop in H. destruct H as [He Ht].
    destruct (IH Ht) as (I1 & I2 & I3).
    destruct e; cbn in He; try discriminate; cbn; auto.
Qed.

Lemma routed_is_not_outgoing (t : list Effect) :
  forallb routed t = true -> outgoing t = [].
Proof.
  unfold outgoing. induction t as [|e t IH]; cbn; intros H.
  - reflexivity.
  - apply andb_prop in H. destruct H as [He Ht].
    rewrite He. cbn. apply IH, Ht.
Qed.

Lemma connect_attempts_app (t u : list Effect) :
  connect_attempts (t ++ u) = connect_attempts t + connect_attempts u.
Proof. unfold connect_attempts. rewrite filter_app, length_app. reflexivity. Qed.

Lemma dispatched_keys_cons (e : Effect) (t : list Effect) :
  dispatched_keys (e :: t) = operation_key e ++ dispatched_keys t.
Proof. reflexivity. Qed.

Lemma dispatched_keys_app (t u : list Effect) :
  dispatched_keys (t ++ u) = dispatched_keys t ++ dispatched_keys u.
Proof. apply flat_map_app. Qed.

Section Methods.

Context {host : Host}.

Lemma await_eq (A : Type) (p : Settled A) (this : Provider) :
  await p this =
  mkOutcome
    (match settles p with inl a => Normal a | inr e => Throw e end)
    (after (deliver (during p) this))
    (trace (deliver (during p) this)).
Proof.
  unfold await. rewrite bind_normal with (a := tt) by apply deliver_returns.
  destruct (settles p); cbn; rewrite app_nil_r; reflexivity.
Qed.

Lemma client_call_eq (A : Type) (request : Request) (p : Settled A)
    (this : Provider) :
  client_call request p this =
  mkOutcome
    (match settles p with inl a => Normal a | inr e => Throw e end)
    (after (deliver (during p) this))
    (ClientCall (_secureSolanaClient this) request
     :: trace (deliver (during p) this)).
Proof.
  unfold client_call. rewrite bind_get, bind_tell, await_eq. reflexivity.
Qed.

Lemma await_silent (A : Type) (p : Settled A) (this : Provider) :
  connect_attempts (trace (await p this)) = 0 /\
  dispatched_keys (trace (await p this)) = [] /\
  dispatched_connections (trace (await p this)) = [].
Proof. rewrite await_eq. cbn. apply routed_is_silent, deliver_routed. Qed.

Lemma connect_connected (onConnect : Settled ConnectResult)
    (this : Provider) :
  _isConnected this = true ->
  connect onConnect this =
  mkOutcome (Normal tt) this [ConsoleWarn "provider already connected"].
Proof. intros H. unfold connect. rewrite bind_get, H. reflexivity. Qed.

Lemma connect_disconnected (onConnect : Settled ConnectResult)
    (this : Provider) :
  _isConnected this = false ->
  connect onConnect this =
  let waiting := deliver (during onConnect) this in
  let request :=
    (if _isXnft this then [ConsoleWarn "xnft already connected"] else []) ++
    ClientCall (_secureSolanaClient this) Req_connect :: trace waiting in
  match settles onConnect with
  | inl result =>
      match PublicKey_throws (Some (result_publicKey result)) with
      | None =>
          mkOutcome (Normal tt)
            (bound (Some (result_publicKey result))
               (Some (result_connectionUrl result)) (after waiting))
            request
      | Some e =>
          mkOutcome (Throw e) (set_isConnected true (after waiting)) request
      end
  | inr e => mkOutcome (Throw e) (after waiting) request
  end.
Proof.
  intros H. unfold connect. rewrite bind_get, H.
  unfold when, console_warn.
  destruct (_isXnft this);
    [ rewrite bind_tell | rewrite bind_normal with (a := tt) by reflexivity ];
    unfold bind; rewrite client_call_eq;
    destruct (settles onConnect) as [result|e]; cbn;
      unfold new_PublicKey;
      try destruct (PublicKey_throws (Some (result_publicKey result)));
      cbn; rewrite ?app_nil_r; reflexivity.
Qed.

Lemma connect_one_attempt (onConnect : Settled ConnectResult)
    (this : Provider) :
  connect_attempts (trace (connect onConnect this)) = 1 /\
  dispatched_keys (trace (connect onConnect this)) = [].
Proof.
  destruct (_isConnected this) eqn:H.
  - rewrite (connect_connected _ _ H). split; reflexivity.
  - rewrite (connect_disconnected _ _ H). cbn zeta.
    destruct (routed_is_silent _ (deliver_routed (during onConnect) this))
      as (H1 & H2 & _).
    destruct (settles onConnect) as [result|e];
      try destruct (PublicKey_throws (Some (result_publicKey result)));
      cbn [trace];
      rewrite connect_attempts_app, dispatched_keys_app;
      destruct (_isXnft this); cbn;
      unfold connect_attempts, dispatched_keys in *; cbn;
      rewrite ?H1, ?H2; split; reflexivity.
Qed.

Lemma guarded_eq (g : Guarded) (onConnect : Settled ConnectResult)
    (onResponse : Settled Response) (this : Provider) :
  guarded g onConnect onResponse this =
  let attempt :=
    when (negb (truthy (_publicKey this))) (connect onConnect) this in
  match completion attempt with
  | Throw e => mkOutcome (Throw e) (after attempt) (trace attempt)
  | Normal _ =>
      if truthy (_publicKey (after attempt)) then
        let reply := await onResponse (after attempt) in
        mkOutcome (completion reply) (after reply)
          (trace attempt ++ handover g (after attempt) :: trace reply)
      else
        mkOutcome (Throw (Error "wallet not connected")) (after attempt)
          (trace attempt)
  end.
Proof.
  cbn zeta.
  destruct g; cbn [guarded];
    unfold sendAndConfirm, send, simulate, signTransaction,
      signAllTransactions, signMessage, client_call;
    rewrite bind_get;
    destruct (completion
                (when (negb (truthy (_publicKey this))) (connect onConnect)
                   this)) as [[]|e] eqn:E;
    try (rewrite (bind_throw _ _ _ E); reflexivity);
    rewrite (bind_normal _ _ _ E);
    rewrite bind_get;
    destruct (truthy
                (_publicKey
                   (after
                      (when (negb (truthy (_publicKey this)))
                         (connect onConnect) this))));
    cbn [negb throw completion after trace];
    try (rewrite app_nil_r; reflexivity);
    try rewrite bind_get; rewrite bind_tell; reflexivity.
Qed.

Lemma disconnect_standalone (onDisconnect : Settled unit) (this : Provider) :
  _isXnft this = false ->
  disconnect onDisconnect this =
  let waiting := deliver (during onDisconnect) this in
  let request :=
    ClientCall (_secureSolanaClient this) Req_disconnect :: trace waiting in
  match settles onDisconnect with
  | inl _ => mkOutcome (Normal tt) (cleared (after waiting)) request
  | inr e => mkOutcome (Throw e) (after waiting) request
  end.
Proof.
  intros Hx. unfold disconnect. rewrite bind_get, Hx.
  unfold bind. rewrite client_call_eq.
  destruct (settles onDisconnect); cbn; rewrite ?app_nil_r; reflexivity.
Qed.

Lemma disconnect_embedded (onDisconnect : Settled unit) (this : Provider) :
  _isXnft this = true ->
  disconnect onDisconnect this =
  mkOutcome (Normal tt) this [ConsoleWarn "xnft can't be disconnected"].
Proof. intros Hx. unfold disconnect. rewrite bind_get, Hx. reflexivity. Qed.

(** C9. [connect()] on a provider whose [isConnected] is [true] returns
    normally, leaves the provider as it is, and its only effect is the
    warning: no request goes to the trusted side. *)
Theorem connect_when_connected_is_noop
    (onConnect : Settled ConnectResult) (this : Provider) :
  isConnected this = true ->
  connect onConnect this =
  mkOutcome (Normal tt) this [ConsoleWarn "provider already connected"].
Proof. apply connect_connected. Qed.

(** The default connection is the one [new Connection] returns on the
    default endpoint. *)
Lemma defaultConnection_returns (this : Provider) :
  new_Connection (Some default_url) this = ret defaultConnection this.
Proof.
  unfold new_Connection, default_url.
  rewrite default_endpoint_accepted. reflexivity.
Qed.

(** C3, as the code has it.  [disconnect()] outside the plugin context
    sends the disconnect request to the trusted side and waits.  When the
    request resolves, [disconnect()] returns, the account is cleared, the
    connection and the bound client are a plain connection to
    [process.env.DEFAULT_SOLANA_CONNECTION_URL || DEFAULT_SOLANA_CLUSTER]
    and [isConnected] is [false], whatever messages arrive while the
    request is pending.  When the request is rejected, [disconnect()]
    throws the rejection and assigns nothing: the provider is what the
    messages delivered meanwhile left.  In the plugin context
    [disconnect()] returns normally with the provider unchanged; its only
    effect is the warning, and no request is sent. *)
Theorem disconnect_by_context
    (onDisconnect : Settled unit) (this : Provider) :
  let o := disconnect onDisconnect this in
  let default_endpoint :=
    Connection_new
      (Some
         match process_env_DEFAULT_SOLANA_CONNECTION_URL with
         | Some u => if String.eqb u "" then DEFAULT_SOLANA_CLUSTER else u
         | None => DEFAULT_SOLANA_CLUSTER
         end) in
  (isXnft this = false ->
   trace o =
     ClientCall (_secureSolanaClient this) Req_disconnect
     :: trace (deliver (during onDisconnect) this) /\
   (settles onDisconnect = inl tt ->
    completion o = Normal tt /\
    publicKey (after o) = None /\
    connection (after o) = default_endpoint /\
    client_connection (_secureSolanaClient (after o)) = default_endpoint /\
    isConnected (after o) = false) /\
   (forall reason : Exn,
      settles onDisconnect = inr reason ->
      completion o = Throw reason /\
      after o = after (deliver (during onDisconnect) this))) /\
  (isXnft this = true ->
   o = mkOutcome (Normal tt) this [ConsoleWarn "xnft can't be disconnected"]).
Proof.
  unfold isXnft, publicKey, connection, isConnected. cbn zeta. split.
  - intros Hx. rewrite (disconnect_standalone _ _ Hx). cbn zeta.
    split; [ destruct (settles onDisconnect); reflexivity | ].
    split.
    + intros Hs. rewrite Hs. repeat split; reflexivity.
    + intros reason Hs. rewrite Hs. split; reflexivity.
  - apply disconnect_embedded.
Qed.

(** C4, as the code has it.  A guarded method called with no account bound
    runs [connect()] exactly once.  When that attempt throws, the method
    throws the same exception; when it returns and still no account is
    bound, the method throws [Error "wallet not connected"].  In both cases
    nothing happens beyond the attempt, and the attempt hands no operation
    over. *)
Theorem guarded_connects_once
    (g : Guarded) (onConnect : Settled ConnectResult)
    (onResponse : Settled Response) (this : Provider) :
  truthy (publicKey this) = false ->
  let attempt := connect onConnect this in
  let o := guarded g onConnect onResponse this in
  connect_attempts (trace o) = 1 /\
  (forall e : Exn,
     completion attempt = Throw e ->
     completion o = Throw e /\ after o = after attempt /\
     trace o = trace attempt) /\
  (completion attempt = Normal tt ->
   truthy (publicKey (after attempt)) = false ->
   completion o = Throw (Error "wallet not connected") /\
   after o = after attempt /\ trace o = trace attempt) /\
  dispatched_keys (trace attempt) = [].
Proof.
  unfold publicKey. intros Hkey. cbn zeta.
  rewrite guarded_eq. cbn zeta. rewrite Hkey. cbn [negb when].
  destruct (connect_one_attempt onConnect this) as [Hone Hnone].
  destruct (completion (connect onConnect this)) as [[]|e] eqn:E.
  - destruct (truthy (_publicKey (after (connect onConnect this)))) eqn:T;
      cbn [completion after trace].
    + split; [ | split; [ intros e He; discriminate
                        | split; [ intros _ Hf; discriminate
                                 | exact Hnone ] ] ].
      rewrite connect_attempts_app, Hone.
      change (handover g (after (connect onConnect this))
              :: trace (await onResponse (after (connect onConnect this))))
        with ([handover g (after (connect onConnect this))]
              ++ trace (await onResponse (after (connect onConnect this)))).
      rewrite connect_attempts_app.
      destruct (await_silent onResponse (after (connect onConnect this)))
        as (H0 & _).
      rewrite H0. destruct g; reflexivity.
    + split; [ exact Hone | ].
      split; [ intros e He; discriminate | ].
      split; [ intros _ _; repeat split; reflexivity | exact Hnone ].
  - cbn [completion after trace].
    split; [ exact Hone | ].
    split; [ intros e' He'; injection He' as <-; repeat split; reflexivity | ].
    split; [ intros He; discriminate | exact Hnone ].
Qed.

(** C10. Every guarded method takes an optional [publicKey].  Called with
    an account bound, it hands over exactly one operation, carrying the
    caller's key when one is supplied and the session account otherwise.
    Called with none bound, it hands over an operation exactly when the
    [connect()] attempt returns with an account bound, and the same rule
    gives the key it carries. *)
Theorem guarded_request_carries_key
    (g : Guarded) (onConnect : Settled ConnectResult)
    (onResponse : Settled Response) (this : Provider) :
  let key_for := fun session : Provider =>
    match supplied_key g with
    | Some key => Some (KeyObject key)
    | None => publicKey session
    end in
  let o := guarded g onConnect onResponse this in
  let attempt := connect onConnect this in
  (truthy (publicKey this) = true ->
   dispatched_keys (trace o) = [key_for this]) /\
  (truthy (publicKey this) = false ->
   dispatched_keys (trace o) =
   match completion attempt with
   | Normal _ =>
       if truthy (publicKey (after attempt))
       then [key_for (after attempt)]
       else []
   | Throw _ => []
   end).
Proof.
  unfold publicKey. cbn zeta.
  assert (Hhand : forall s, operation_key (handover g s) =
            [match supplied_key g with
             | Some key => Some (KeyObject key)
             | None => _publicKey s
             end]).
  { intros s. destruct g as [? ? ? ? k|? ? ? ? k|? ? ? ? k|? k ?|? k ?|? k];
      destruct k; reflexivity. }
  split; intros Hkey; rewrite guarded_eq; cbn zeta; rewrite Hkey;
    cbn [negb when ret completion after trace].
  - rewrite Hkey.
    destruct (await_silent onResponse this) as (_ & H0 & _).
    cbn [app trace]. rewrite dispatched_keys_cons, Hhand, H0. reflexivity.
  - destruct (connect_one_attempt onConnect this) as [_ Hnone].
    destruct (completion (connect onConnect this)) as [[]|e];
      [ | exact Hnone ].
    destruct (truthy (_publicKey (after (connect onConnect this))));
      cbn [trace]; [ | exact Hnone ].
    destruct (await_silent onResponse (after (connect onConnect this)))
      as (_ & H0 & _).
    rewrite dispatched_keys_app, Hnone, dispatched_keys_cons, Hhand, H0.
    reflexivity.
Qed.

End Methods.

Lemma connect_when_connected_is_noop_witness :
  isConnected connected_page = true /\
  @connect page
    (resolved (mkConnectResult "So11111111111111111111111111111111111111112" "https://rpc.other.example"))
    connected_page =
  mkOutcome (Normal tt) connected_page
    [ConsoleWarn "provider already connected"].
Proof.
  split; [ reflexivity | ].
  apply (@connect_when_connected_is_noop page). reflexivity.
Defined.

Lemma disconnect_by_context_witness :
  let o := @disconnect page (resolved tt) connected_page in
  let refused := @disconnect page (rejected (Rejection "Locked"))
                   connected_page in
  (isXnft connected_page = false /\
   isConnected connected_page = true /\
   publicKey connected_page =
     Some (KeyObject
             (PublicKey_new (Some "11111111111111111111111111111111"))) /\
   completion o = Normal tt /\
   publicKey (after o) = None /\
   connection (after o) =
     Connection_new (Some "https://api.mainnet-beta.solana.com") /\
   client_connection (_secureSolanaClient (after o)) =
     Connection_new (Some "https://api.mainnet-beta.solana.com") /\
   isConnected (after o) = false) /\
  (completion refused = Throw (Rejection "Locked") /\
   after refused = connected_page) /\
  (isXnft embedded_page = true /\
   @disconnect page (resolved tt) embedded_page =
   mkOutcome (Normal tt) embedded_page
     [ConsoleWarn "xnft can't be disconnected"]).
Proof.
  cbn zeta. split; [ | split ].
  - destruct (proj1 (@disconnect_by_context page (resolved tt) connected_page)
                eq_refl) as (_ & Hresolved & _).
    destruct (Hresolved eq_refl) as (Hdone & Hkey & Hconn & Hclient & Hflag).
    split; [ reflexivity | split; [ reflexivity | split; [ reflexivity | ] ] ].
    split; [ exact Hdone | split; [ exact Hkey | split; [ exact Hconn | ] ] ].
    split; [ exact Hclient | exact Hflag ].
  - destruct (proj1 (@disconnect_by_context page
                       (rejected (Rejection "Locked")) connected_page)
                eq_refl) as (_ & _ & Hrejected).
    exact (Hrejected (Rejection "Locked") eq_refl).
  - split; [ reflexivity | ].
    apply (proj2 (@disconnect_by_context page (resolved tt) embedded_page)).
    reflexivity.
Defined.

(** C3, as stated, fails: the provider is connected outside the plugin
    context, the trusted side rejects the disconnect request, and
    [disconnect()] throws with the account, the endpoint and [isConnected]
    as they were. *)
Lemma rejected_disconnect_keeps_the_session :
  let onDisconnect : Settled unit :=
    rejected (Rejection "User rejected the request") in
  let o := @disconnect page onDisconnect connected_page in
  isXnft connected_page = false /\
  isConnected connected_page = true /\
  completion o = Throw (Rejection "User rejected the request") /\
  publicKey (after o) =
    Some (KeyObject
            (PublicKey_new (Some "11111111111111111111111111111111"))) /\
  connection (after o) =
    BackgroundSolanaConnection_new
      (InjectedRequestManager CHANNEL_SOLANA_CONNECTION_INJECTED_REQUEST
         CHANNEL_SOLANA_CONNECTION_INJECTED_RESPONSE)
      (Some "https://rpc.old.example") /\
  connection (after o) <> @defaultConnection page /\
  isConnected (after o) = true.
Proof.
  cbn zeta. repeat split; try reflexivity.
  intros H. discriminate H.
Qed.

Lemma guarded_connects_once_witness :
  let onReject : Settled ConnectResult :=
    rejected (Rejection "User rejected the request") in
  let onAccept : Settled ConnectResult :=
    resolved (mkConnectResult "So11111111111111111111111111111111111111112" "https://rpc.example") in
  let refused := @guarded page (G_signMessage "hello" None) onReject
                   (resolved "signature") (@constructor page) in
  let keyless := @guarded page (G_send "tx" None None None None) onAccept
                   (resolved "signature") keyless_page in
  (connect_attempts (trace refused) = 1 /\
   completion refused = Throw (Rejection "User rejected the request") /\
   dispatched_keys (trace refused) = []) /\
  (isConnected keyless_page = true /\
   connect_attempts (trace keyless) = 1 /\
   completion keyless = Throw (Error "wallet not connected") /\
   trace keyless = [ConsoleWarn "provider already connected"]).
Proof.
  cbn zeta. split.
  - destruct (@guarded_connects_once page (G_signMessage "hello" None)
                (rejected (Rejection "User rejected the request"))
                (resolved "signature") (@constructor page) eq_refl)
      as (Hone & Hthrow & _ & Hnone).
    destruct (Hthrow _ eq_refl) as (Hc & _ & Ht).
    split; [ exact Hone | split; [ exact Hc | ] ].
    rewrite Ht. exact Hnone.
  - destruct (@guarded_connects_once page (G_send "tx" None None None None)
                (resolved (mkConnectResult "So11111111111111111111111111111111111111112" "https://rpc.example"))
                (resolved "signature") keyless_page eq_refl)
      as (Hone & _ & Hreturn & _).
    destruct (Hreturn eq_refl eq_refl) as (Hc & _ & Ht).
    split; [ reflexivity | split; [ exact Hone | split; [ exact Hc | ] ] ].
    rewrite Ht. reflexivity.
Defined.

(** C4, as stated, fails: the trusted side rejects the connect request, no
    account is bound after the attempt, and [send] throws the rejection,
    not the not-connected error. *)
Lemma rejected_connect_is_not_reported_as_not_connected :
  let this := @constructor page in
  let onConnect : Settled ConnectResult :=
    rejected (Rejection "User rejected the request") in
  let o := @send page "tx" None None None None onConnect
             (resolved "signature") this in
  truthy (publicKey this) = false /\
  truthy (publicKey (after (@connect page onConnect this))) = false /\
  completion o = Throw (Rejection "User rejected the request") /\
  completion o <> Throw (Error "wallet not connected").
Proof.
  cbn zeta. repeat split; try reflexivity.
  intros H. discriminate H.
Qed.

Lemma guarded_request_carries_key_witness :
  let supplied := PublicKey_new (Some "SysvarC1ock11111111111111111111111111111111") in
  dispatched_keys
    (trace (@send page "tx" None None None (Some supplied)
              (resolved (mkConnectResult "So11111111111111111111111111111111111111112" "https://rpc.example"))
              (resolved "signature") connected_page)) =
    [Some (KeyObject supplied)] /\
  dispatched_keys
    (trace (@simulate page "tx" None None None None
              (resolved (mkConnectResult "So11111111111111111111111111111111111111112" "https://rpc.example"))
              (resolved "ok") connected_page)) =
    [Some (KeyObject (PublicKey_new (Some "11111111111111111111111111111111")))] /\
  dispatched_keys
    (trace (@signMessage page "hello" (Some supplied)
              (resolved (mkConnectResult "So11111111111111111111111111111111111111112" "https://rpc.example"))
              (resolved "signature") (@constructor page))) =
    [Some (KeyObject supplied)].
Proof.
  cbn zeta. split; [ | split ].
  - apply (proj1 (@guarded_request_carries_key page
                    (G_send "tx" None None None
                       (Some (PublicKey_new (Some "SysvarC1ock11111111111111111111111111111111"))))
                    _ _ connected_page)).
    reflexivity.
  - apply (proj1 (@guarded_request_carries_key page
                    (G_simulate "tx" None None None None)
                    _ _ connected_page)).
    reflexivity.
  - apply (proj2 (@guarded_request_carries_key page
                    (G_signMessage "hello"
                       (Some (PublicKey_new (Some "SysvarC1ock11111111111111111111111111111111"))))
                    (resolved (mkConnectResult "So11111111111111111111111111111111111111112" "https://rpc.example"))
                    (resolved "signature") (@constructor page))).
    reflexivity.
Defined.

(** ** The disconnected notification and the endpoint update *)

Section Notifications.

Context {host : Host}.

Lemma accepted_dispatch (event : Event) (this : Provider) :
  accepted event = true ->
  handleNotification event this =
  bind (tell (LoggerDebug "notification" event))
    (fun _ =>
       match name (detail event) with
       | NOTIFICATION_SOLANA_CONNECTED => handleNotificationConnected event
       | NOTIFICATION_SOLANA_DISCONNECTED =>
           handleNotificationDisconnected event
       | NOTIFICATION_CONNECTION_URL_UPDATED =>
           handleNotificationConnectionUrlUpdated event
       | NOTIFICATION_ACTIVE_WALLET_UPDATED =>
           handleNotificationActiveWalletUpdated event
       | PLUGIN_NOTIFICATION_CONNECT => handlePluginConnect event
       | PLUGIN_NOTIFICATION_MOUNT => handlePluginMount event
       | PLUGIN_NOTIFICATION_UPDATE_METADATA =>
           handlePluginUpdateMetadata event
       | PLUGIN_NOTIFICATION_UNMOUNT => handlePluginUnmount event
       | PLUGIN_NOTIFICATION_CONNECTION_URL_UPDATED =>
           handlePluginConnectionUrlUpdated event
       | PLUGIN_NOTIFICATION_SOLANA_PUBLIC_KEY_UPDATED =>
           handlePluginPublicKeyUpdated event
       | OtherName unexpected =>
           throw (Error ("unexpected notification " ++ unexpected))
       end) this.
Proof.
  unfold accepted, handleNotification. intros H.
  apply andb_prop in H. destruct H as [Hvalid Hchan]. rewrite Hvalid.
  destruct (type event); try discriminate; reflexivity.
Qed.

(** The disconnected notification resets the flag, the connection and the
    client, and assigns nothing to [#publicKey]. *)
Lemma disconnected_notification (event : Event) (this : Provider) :
  accepted event = true ->
  name (detail event) = NOTIFICATION_SOLANA_DISCONNECTED ->
  handleNotification event this =
  mkOutcome (Normal tt)
    (set_secureSolanaClient
       (SolanaClient_new (_secureClientSender this) defaultConnection)
       (set_connection defaultConnection (set_isConnected false this)))
    [LoggerDebug "notification" event; Emit "disconnect" (detail event)].
Proof.
  intros Hacc Hname. rewrite (accepted_dispatch _ _ Hacc), Hname.
  reflexivity.
Qed.

Lemma disconnected_notification_publicKey (event : Event) (this : Provider) :
  accepted event = true ->
  name (detail event) = NOTIFICATION_SOLANA_DISCONNECTED ->
  publicKey (after (handleNotification event this)) = publicKey this.
Proof.
  intros Hacc Hname. rewrite (disconnected_notification _ _ Hacc Hname).
  reflexivity.
Qed.

(** The extension's endpoint update for Solana rebuilds the client on the
    new endpoint and assigns nothing to [#connection]. *)
Lemma endpoint_update (event : Event) (this : Provider) (d : Data.t) :
  accepted event = true ->
  name (detail event) = NOTIFICATION_CONNECTION_URL_UPDATED ->
  data (detail event) = Some d ->
  Data.blockchain d = Some SOLANA ->
  handleNotification event this =
  match Connection_throws (Data.url d) with
  | None =>
      mkOutcome (Normal tt)
        (set_secureSolanaClient
           (SolanaClient_new (_secureClientSender this)
              (Connection_new (Data.url d)))
           this)
        [LoggerDebug "notification" event;
         Emit "connectionDidChange" (detail event)]
  | Some e => mkOutcome (Throw e) this [LoggerDebug "notification" event]
  end.
Proof.
  intros Hacc Hname Hdata Hchain.
  rewrite (accepted_dispatch _ _ Hacc), Hname.
  unfold handleNotificationConnectionUrlUpdated, new_Connection, bind, deref.
  rewrite Hdata. cbn. rewrite Hchain. cbn.
  destruct (Connection_throws (Data.url d)); reflexivity.
Qed.

(** The plugin host's endpoint update for Solana assigns [#connection] and
    rebuilds the client on it. *)
Lemma plugin_endpoint_update (event : Event) (this : Provider) (d : Data.t) :
  accepted event = true ->
  name (detail event) = PLUGIN_NOTIFICATION_CONNECTION_URL_UPDATED ->
  data (detail event) = Some d ->
  Data.blockchain d = Some SOLANA ->
  let updated :=
    BackgroundSolanaConnection_new (_connectionRequestManager this)
      (Data.url d) in
  handleNotification event this =
  mkOutcome (Normal tt)
    (set_secureSolanaClient
       (SolanaClient_new (_secureClientSender this) updated)
       (set_connection updated this))
    [LoggerDebug "notification" event;
     Emit "connectionDidChange" (detail event)].
Proof.
  intros Hacc Hname Hdata Hchain.
  rewrite (accepted_dispatch _ _ Hacc), Hname.
  unfold handlePluginConnectionUrlUpdated, bind, deref.
  rewrite Hdata. cbn. rewrite Hchain. reflexivity.
Qed.

(** After the extension's endpoint update, with an account bound, a guarded
    method that goes through the client goes through the new endpoint;
    [simulate], given no connection of its own, uses [#connection], which
    is the one from before the update. *)
Lemma guarded_after_endpoint_update
    (event : Event) (this : Provider) (d : Data.t) (g : Guarded)
    (onConnect : Settled ConnectResult) (onResponse : Settled Response) :
  accepted event = true ->
  name (detail event) = NOTIFICATION_CONNECTION_URL_UPDATED ->
  data (detail event) = Some d ->
  Data.blockchain d = Some SOLANA ->
  Connection_throws (Data.url d) = None ->
  truthy (publicKey this) = true ->
  dispatched_connections
    (trace (guarded g onConnect onResponse
              (after (handleNotification event this)))) =
  [match g with
   | G_simulate _ _ _ (Some custom) _ => custom
   | G_simulate _ _ _ None _ => connection this
   | _ => Connection_new (Data.url d)
   end].
Proof.
  unfold publicKey, connection. intros Hacc Hname Hdata Hchain Hurl Hkey.
  rewrite (endpoint_update _ _ Hacc Hname Hdata Hchain), Hurl. cbn [after].
  rewrite guarded_eq. cbn zeta. cbn [_publicKey set_secureSolanaClient].
  rewrite Hkey. cbn [negb when ret completion after trace].
  cbn [_publicKey set_secureSolanaClient]. rewrite ?Hkey. cbn [app trace].
  match goal with
  | |- dispatched_connections (?e :: trace (await ?p ?s)) = _ =>
      destruct (await_silent p s) as (_ & _ & H0);
      change (dispatched_connections (e :: trace (await p s)))
        with (operation_connection e
              ++ dispatched_connections (trace (await p s)));
      rewrite H0
  end.
  destruct g as [? ? ? ? ?|? ? ? ? ?|? ? ? c ?|? ? ?|? ? ?|? ?];
    try destruct c; reflexivity.
Qed.

End Notifications.

(** C2.  The page's provider is connected by [connect()], the trusted
    side replying with the key of the system program (32 zero bytes in
    base58, a key [new PublicKey] accepts).  The disconnected notification
    then sets [isConnected] to [false] and puts the connection back on the
    default endpoint, and [publicKey] is still that key afterwards;
    [disconnect()] on the same provider leaves no account. *)
Theorem disconnected_notification_keeps_account :
  let event := notification CHANNEL_SOLANA_NOTIFICATION
                 NOTIFICATION_SOLANA_DISCONNECTED None in
  let o := @handleNotification page event connected_page in
  @PublicKey_throws page (Some "11111111111111111111111111111111") = None /\
  completion
    (@connect page
       (resolved
          (mkConnectResult "11111111111111111111111111111111"
             "https://rpc.old.example"))
       (@constructor page)) = Normal tt /\
  isConnected connected_page = true /\
  publicKey connected_page = Some (KeyObject (PublicKey_new (Some "11111111111111111111111111111111"))) /\
  completion o = Normal tt /\
  isConnected (after o) = false /\
  connection (after o) = @defaultConnection page /\
  connection (after o) =
    Connection_new (Some "https://api.mainnet-beta.solana.com") /\
  publicKey (after o) = Some (KeyObject (PublicKey_new (Some "11111111111111111111111111111111"))) /\
  publicKey (after (@disconnect page (resolved tt) connected_page)) = None.
Proof. cbn zeta. repeat split; reflexivity. Qed.

(** C8.  The page's provider is connected on the old endpoint with a key
    [new PublicKey] accepts; the extension's endpoint update for Solana
    arrives with an [https:] endpoint, which [new Connection] accepts, and
    its handler returns.  The client is then bound to the new endpoint and
    [send] goes through it, while [connection] is still the old one and
    [simulate] hands the old one over.  The plugin host's endpoint update,
    on the same provider, does move [connection]. *)
Theorem simulate_after_endpoint_update_uses_old_connection :
  let payload := Data.make (Some SOLANA) (Some "https://rpc.new.example")
                   None None None None in
  let updated :=
    after (@handleNotification page
             (notification CHANNEL_SOLANA_NOTIFICATION
                NOTIFICATION_CONNECTION_URL_UPDATED (Some payload))
             connected_page) in
  let by_plugin :=
    after (@handleNotification page
             (notification CHANNEL_PLUGIN_NOTIFICATION
                PLUGIN_NOTIFICATION_CONNECTION_URL_UPDATED (Some payload))
             connected_page) in
  let manager :=
    InjectedRequestManager CHANNEL_SOLANA_CONNECTION_INJECTED_REQUEST
      CHANNEL_SOLANA_CONNECTION_INJECTED_RESPONSE in
  let old_connection :=
    BackgroundSolanaConnection_new manager (Some "https://rpc.old.example") in
  let onConnect := resolved (mkConnectResult "So11111111111111111111111111111111111111112" "https://rpc.example") in
  @PublicKey_throws page (Some "11111111111111111111111111111111") = None /\
  @Connection_throws page (Some "https://rpc.new.example") = None /\
  isConnected connected_page = true /\
  completion
    (@handleNotification page
       (notification CHANNEL_SOLANA_NOTIFICATION
          NOTIFICATION_CONNECTION_URL_UPDATED (Some payload))
       connected_page) = Normal tt /\
  connection connected_page = old_connection /\
  client_connection (_secureSolanaClient updated) =
    Connection_new (Some "https://rpc.new.example") /\
  dispatched_connections
    (trace (@send page "tx" None None None None onConnect
              (resolved "signature") updated)) =
    [Connection_new (Some "https://rpc.new.example")] /\
  connection updated = old_connection /\
  dispatched_connections
    (trace (@simulate page "tx" None None None None onConnect
              (resolved "ok") updated)) =
    [old_connection] /\
  connection by_plugin =
    BackgroundSolanaConnection_new manager (Some "https://rpc.new.example").
Proof. cbn zeta. repeat split; reflexivity. Qed.

(** ** Resource addresses and balances *)

Section ResourceUri.

Import Utils.

Lemma strip_nul_nul_free (s : string) : nul_free (strip_nul s) = true.
Proof.
  induction s as [|c rest IH]; cbn; [ reflexivity | ].
  destruct (Ascii.eqb c Ascii.zero) eqn:E; cbn; [ exact IH | ].
  rewrite E, IH. reflexivity.
Qed.

Lemma strip_nul_fixed (s : string) : nul_free s = true -> strip_nul s = s.
Proof.
  induction s as [|c rest IH]; cbn; intros H; [ reflexivity | ].
  apply andb_prop in H. destruct H as [Hc Hr].
  apply negb_true_iff in Hc. rewrite Hc, (IH Hr). reflexivity.
Qed.

Lemma nul_free_append (s t : string) :
  nul_free (String.append s t) = nul_free s && nul_free t.
Proof.
  induction s as [|c rest IH]; cbn; [ reflexivity | ].
  rewrite IH. apply andb_assoc.
Qed.

Lemma nul_free_drop (n : nat) (s : string) :
  nul_free s = true -> nul_free (drop n s) = true.
Proof.
  revert s. induction n as [|n IH]; intros [|c rest] H; cbn; auto.
  cbn in H. apply andb_prop in H. apply IH, H.
Qed.

Lemma append_empty (s : string) : String.append s EmptyString = s.
Proof. induction s as [|c s IH]; cbn; [ | rewrite IH ]; reflexivity. Qed.

Lemma replace_prefix (pattern replacement s : string) :
  String.prefix pattern s = true ->
  replace pattern replacement s =
  String.append replacement (drop (String.length pattern) s).
Proof.
  destruct s as [|c rest]; cbn [replace]; intros H; rewrite H.
  - destruct pattern; [ | discriminate H ].
    cbn. symmetry. apply append_empty.
  - reflexivity.
Qed.

Lemma prefix_append (p rest : string) :
  String.prefix p (String.append p rest) = true.
Proof.
  induction p as [|c p IH]; cbn.
  - destruct rest; reflexivity.
  - destruct (Ascii.ascii_dec c c) as [_|N]; [ exact IH | contradiction ].
Qed.

Lemma drop_append (p rest : string) :
  drop (String.length p) (String.append p rest) = rest.
Proof. induction p as [|c p IH]; cbn; [ reflexivity | exact IH ]. Qed.

Lemma nonempty_strip (s : string) :
  nonempty (strip_nul s) = true -> nonempty s = true.
Proof. destruct s; [ discriminate | reflexivity ]. Qed.

(** The address after the first step of [externalResourceUri]. *)
Lemma cleaned_eq (uri : string) :
  (if nonempty uri then strip_nul uri else uri) = strip_nul uri.
Proof. destruct uri; reflexivity. Qed.

(** X20. [externalResourceUri] never returns a string holding a NUL
    character, with or without the [cached] option. *)
Theorem externalResourceUri_has_no_nul (uri : string) (cached : option bool) :
  nul_free (externalResourceUri uri cached) = true.
Proof.
  unfold externalResourceUri. rewrite cleaned_eq.
  pose proof (strip_nul_nul_free uri) as Hfree.
  destruct (nonempty (strip_nul uri) && String.prefix "ipfs://" (strip_nul uri))
    eqn:Hipfs.
  - apply andb_prop in Hipfs. destruct Hipfs as [_ Hp].
    rewrite (replace_prefix _ _ _ Hp), nul_free_append.
    rewrite (nul_free_drop _ _ Hfree). reflexivity.
  - destruct (nonempty (strip_nul uri) && String.prefix "ar://" (strip_nul uri))
      eqn:Har.
    + apply andb_prop in Har. destruct Har as [_ Hp].
      rewrite (replace_prefix _ _ _ Hp), nul_free_append.
      rewrite (nul_free_drop _ _ Hfree). reflexivity.
    + destruct cached as [[|]|]; exact Hfree.
Qed.

(** X21. An address that reads [ipfs://rest] once its NUL characters
    are removed becomes [https://cloudflare-ipfs.com/ipfs/rest], and
    [ar://rest] becomes [https://arweave.net/rest]; the [cached] option
    makes no difference to either. *)
Theorem externalResourceUri_rewrites_scheme
    (uri rest : string) (cached : option bool) :
  (strip_nul uri = String.append "ipfs://" rest ->
   externalResourceUri uri cached =
   String.append "https://cloudflare-ipfs.com/ipfs/" rest) /\
  (strip_nul uri = String.append "ar://" rest ->
   externalResourceUri uri cached =
   String.append "https://arweave.net/" rest).
Proof.
  unfold externalResourceUri. rewrite cleaned_eq.
  split; intros H; rewrite H.
  - rewrite (prefix_append "ipfs://" rest). cbn [nonempty String.append andb].
    rewrite (replace_prefix "ipfs://" _ (String.append "ipfs://" rest)
               (prefix_append "ipfs://" rest)).
    rewrite (drop_append "ipfs://" rest). reflexivity.
  - replace (nonempty (String.append "ar://" rest) &&
             String.prefix "ipfs://" (String.append "ar://" rest))
      with false by reflexivity.
    rewrite (prefix_append "ar://" rest). cbn [nonempty String.append andb].
    rewrite (replace_prefix "ar://" _ (String.append "ar://" rest)
               (prefix_append "ar://" rest)).
    rewrite (drop_append "ar://" rest). reflexivity.
Qed.


Lemma externalResourceUri_fixed (s : string) (cached : option bool) :
  nul_free s = true ->
  nonempty s && String.prefix "ipfs://" s = false ->
  nonempty s && String.prefix "ar://" s = false ->
  cached <> Some true ->
  externalResourceUri s cached = s.
Proof.
  intros Hfree Hipfs Har Hoff. unfold externalResourceUri.
  rewrite cleaned_eq, (strip_nul_fixed _ Hfree), Hipfs, Har.
  destruct cached as [[|]|]; [ contradiction Hoff | | ]; reflexivity.
Qed.

Lemma externalResourceUri_settled (uri : string) (cached : option bool) :
  cached <> Some true ->
  nul_free (externalResourceUri uri cached) = true /\
  nonempty (externalResourceUri uri cached) &&
    String.prefix "ipfs://" (externalResourceUri uri cached) = false /\
  nonempty (externalResourceUri uri cached) &&
    String.prefix "ar://" (externalResourceUri uri cached) = false.
Proof.
  intros Hoff.
  pose proof (strip_nul_nul_free uri) as Hfree.
  unfold externalResourceUri. rewrite (cleaned_eq uri).
  destruct (nonempty (strip_nul uri) && String.prefix "ipfs://" (strip_nul uri))
    eqn:Hipfs.
  - apply andb_prop in Hipfs. destruct Hipfs as [_ Hp].
    rewrite (replace_prefix _ "https://cloudflare-ipfs.com/ipfs/" _ Hp).
    repeat split; try reflexivity.
    rewrite nul_free_append, (nul_free_drop _ _ Hfree). reflexivity.
  - destruct (nonempty (strip_nul uri) && String.prefix "ar://" (strip_nul uri))
      eqn:Har.
    + apply andb_prop in Har. destruct Har as [_ Hp].
      rewrite (replace_prefix _ "https://arweave.net/" _ Hp).
      repeat split; try reflexivity.
      rewrite nul_free_append, (nul_free_drop _ _ Hfree). reflexivity.
    + destruct cached as [[|]|]; [ contradiction Hoff | | ]; auto.
Qed.

(** X22. Without the [cached] option, applying
    [externalResourceUri] to its own result changes nothing. *)
Theorem externalResourceUri_idempotent (uri : string) (cached : option bool) :
  cached <> Some true ->
  externalResourceUri (externalResourceUri uri cached) cached =
  externalResourceUri uri cached.
Proof.
  intros Hoff.
  destruct (externalResourceUri_settled uri Hoff) as (Hfree & Hipfs & Har).
  apply externalResourceUri_fixed; assumption.
Qed.

Lemma split_dot_dot_free (s : string) :
  forallb dot_free (split_dot s) = true.
Proof.
  induction s as [|c rest IH]; cbn; [ reflexivity | ].
  destruct (Ascii.eqb c "."%char) eqn:E; cbn; [ exact IH | ].
  destruct (split_dot rest) as [|first others]; cbn in *.
  - rewrite E. reflexivity.
  - rewrite E. exact IH.
Qed.

Lemma split_dot_whole (s : string) :
  dot_free s = true -> split_dot s = [s].
Proof.
  induction s as [|c rest IH]; cbn; intros H; [ reflexivity | ].
  apply andb_prop in H. destruct H as [Hc Hr].
  apply negb_true_iff in Hc. rewrite Hc, (IH Hr). reflexivity.
Qed.

Lemma split_dot_join (whole fraction : string) :
  dot_free whole = true ->
  split_dot (String.append whole (String "."%char fraction)) =
  whole :: split_dot fraction.
Proof.
  induction whole as [|c rest IH]; cbn; intros H; [ reflexivity | ].
  apply andb_prop in H. destruct H as [Hc Hr].
  apply negb_true_iff in Hc. rewrite Hc, (IH Hr). reflexivity.
Qed.

Lemma take_dot_free (n : nat) (s : string) :
  dot_free s = true -> dot_free (take n s) = true.
Proof.
  revert s. induction n as [|n IH]; intros [|c rest] H; cbn; auto.
  cbn in H. apply andb_prop in H. destruct H as [Hc Hr].
  rewrite Hc, (IH _ Hr). reflexivity.
Qed.

Lemma take_length (n : nat) (s : string) : String.length (take n s) <= n.
Proof.
  revert s. induction n as [|n IH]; intros [|c rest]; cbn; auto.
  - apply le_0_n.
  - apply le_n_S, IH.
Qed.

Lemma take_take (n : nat) (s : string) : take n (take n s) = take n s.
Proof.
  revert s. induction n as [|n IH]; intros [|c rest]; cbn; auto.
  rewrite IH. reflexivity.
Qed.

(** X23. The truncation step of [toDisplayBalance]: a string with no
    [.] is kept as it is (the [catch]); otherwise the result is the part
    before the first [.], a [.], and at most the first five characters of
    the part up to the next [.], and truncating again changes nothing. *)
Theorem truncate_fraction_shape (displayBalance : string) :
  (dot_free displayBalance = true ->
   truncate_fraction displayBalance = displayBalance) /\
  (forall (whole fraction : string) (others : list string),
     split_dot displayBalance = whole :: fraction :: others ->
     split_dot (truncate_fraction displayBalance) =
       [whole; take 5 fraction] /\
     String.length (take 5 fraction) <= 5 /\
     truncate_fraction (truncate_fraction displayBalance) =
       truncate_fraction displayBalance).
Proof.
  split.
  - intros H. unfold truncate_fraction. rewrite (split_dot_whole _ H).
    reflexivity.
  - intros whole fraction others Hsplit.
    pose proof (split_dot_dot_free displayBalance) as Hfree.
    rewrite Hsplit in Hfree. cbn in Hfree.
    apply andb_prop in Hfree. destruct Hfree as [Hw Hrest].
    apply andb_prop in Hrest. destruct Hrest as [Hf _].
    assert (Hshape : split_dot (truncate_fraction displayBalance) =
                     [whole; take 5 fraction]).
    { unfold truncate_fraction. rewrite Hsplit. cbn [String.append].
      rewrite (split_dot_join whole (take 5 fraction) Hw).
      rewrite (split_dot_whole _ (take_dot_free 5 _ Hf)). reflexivity. }
    split; [ exact Hshape | split; [ apply take_length | ] ].
    unfold truncate_fraction at 1. rewrite Hshape, take_take.
    unfold truncate_fraction. rewrite Hsplit. reflexivity.
Qed.

End ResourceUri.

Section PrivateKeys.

Import Utils.

Context {sdk : Sdk}.

Lemma includes_In (xs : list string) (x : string) :
  includes xs x = true <-> In x xs.
Proof.
  unfold includes. rewrite existsb_exists. split.
  - intros (y & Hy & E). apply String.eqb_eq in E. subst y. exact Hy.
  - intros H. exists x. split; [ exact H | apply String.eqb_refl ].
Qed.

(** X24. A key pair returned by [validatePrivateKey] has a public key
    that is in none of the key lists the keyring holds for that
    blockchain. *)
Theorem validatePrivateKey_returns_a_new_key
    (blockchain : Blockchain) (secretKey : string)
    (keyring : WalletPublicKeys) (groups : list (list string))
    (validated : ValidatedKey) :
  keyring blockchain = Some groups ->
  validatePrivateKey blockchain secretKey keyring = Normal validated ->
  forall group : list string,
    In group groups -> ~ In (validated_publicKey validated) group.
Proof.
  intros Hring Hok group Hgroup Hin.
  assert (Hall : includes (concat groups) (validated_publicKey validated)
                 = true).
  { apply includes_In, in_concat. exists group. split; assumption. }
  unfold validatePrivateKey in Hok. rewrite Hring in Hok.
  destruct blockchain as [| |tag]; [ | | discriminate Hok ].
  - destruct (match Keypair_fromJSON secretKey with
              | Some k => Some k
              | None => Keypair_fromBs58 secretKey
              end) as [keypair|]; [ | discriminate Hok ].
    destruct (includes (concat groups) (keypair_publicKey keypair)) eqn:E;
      [ discriminate Hok | ].
    injection Hok as <-. cbn in Hall. congruence.
  - destruct (Wallet_new secretKey) as [wallet|]; [ | discriminate Hok ].
    destruct (includes (concat groups) (wallet_address wallet)) eqn:E;
      [ discriminate Hok | ].
    injection Hok as <-. cbn in Hall. congruence.
Qed.

(** X25. [validatePrivateKey] throws a [TypeError] when the keyring
    has no entry for the blockchain, throws
    [Error "secret key validation not implemented for blockchain"] for a
    blockchain other than Solana and Ethereum that the keyring has, and so
    returns a key only for Solana or Ethereum with a keyring entry. *)
Theorem validatePrivateKey_supported_chains
    (blockchain : Blockchain) (secretKey : string)
    (keyring : WalletPublicKeys) :
  (keyring blockchain = None ->
   exists message : string,
     validatePrivateKey blockchain secretKey keyring =
     Throw (TypeError message)) /\
  (forall (tag : string) (groups : list (list string)),
     blockchain = OtherBlockchain tag ->
     keyring blockchain = Some groups ->
     validatePrivateKey blockchain secretKey keyring =
     Throw (Error "secret key validation not implemented for blockchain")) /\
  (forall validated : ValidatedKey,
     validatePrivateKey blockchain secretKey keyring = Normal validated ->
     (blockchain = SOLANA \/ blockchain = ETHEREUM) /\
     keyring blockchain <> None).
Proof.
  unfold validatePrivateKey. split; [ | split ].
  - intros H. rewrite H. eexists. reflexivity.
  - intros tag groups Hb Hring. rewrite Hring, Hb. reflexivity.
  - intros validated Hok.
    destruct (keyring blockchain) as [groups|]; [ | discriminate Hok ].
    split; [ | discriminate ].
    destruct blockchain; [ left | right | discriminate Hok ]; reflexivity.
Qed.

End PrivateKeys.

(** ** More on the router and the methods *)

Lemma bind_modify (B : Type) (f : Provider -> Provider) (k : unit -> M B)
    (this : Provider) :
  bind (modify f) k this = k tt (f this).
Proof. unfold bind, modify. destruct (k tt (f this)). reflexivity. Qed.

Section Invariants.

Context {host : Host}.

Variable P : Provider -> Prop.
Hypothesis P_stable : stable P.
Hypothesis P_plugin_connect : forall event, keeps P (handlePluginConnect event).

Ltac assigned :=
  match goal with
  | H : P ?p |- P (set_isConnected _ ?p) => apply (P_stable H)
  | H : P ?p |- P (set_publicKey _ ?p) => apply (P_stable H)
  | H : P ?p |- P (set_connection _ ?p) => apply (P_stable H)
  | H : P ?p |- P (set_secureSolanaClient _ ?p) => apply (P_stable H)
  end.

Lemma handleNotification_keeps (event : Event) :
  keeps P (handleNotification event).
Proof.
  unfold handleNotification.
  destruct (negb (isValidEventOrigin event)); [ apply keeps_ret | ].
  destruct (foreign_channel (type event)); [ apply keeps_ret | ].
  apply keeps_bind; [ apply keeps_tell | intros _ ].
  destruct (name (detail event)); try apply P_plugin_connect;
    unfold handleNotificationConnected, handleNotificationDisconnected,
      handleNotificationConnectionUrlUpdated,
      handleNotificationActiveWalletUpdated, handlePluginMount,
      handlePluginUpdateMetadata, handlePluginUnmount,
      handlePluginConnectionUrlUpdated, handlePluginPublicKeyUpdated,
      new_PublicKey, new_Connection, emit;
    walk_method; assigned.
Qed.

Lemma call_keeps (c : Call) : keeps P (call c).
Proof.
  pose proof (fun events => deliver_keeps events handleNotification_keeps)
    as Hdeliver.
  destruct c as [? | ? | ? ? | g ? ? | ? ? ? ? | ? ? ? ?];
    [ | | | destruct g | | ];
    cbn [call guarded]; apply settle_keeps;
    unfold_methods; walk_method; try apply Hdeliver; assigned.
Qed.

Lemma run_keeps (actions : list Action) : keeps P (run actions).
Proof.
  induction actions as [|a rest IH]; cbn [run].
  - apply keeps_ret.
  - apply keeps_bind; [ | intros _; exact IH ].
    destruct a as [event | c]; cbn [act].
    + apply listener_keeps, handleNotification_keeps.
    + apply call_keeps.
Qed.

End Invariants.

Section RouterMore.

Context {host : Host}.

(** X1. Delivering any sequence of messages produces only public events,
    logger output and reports of uncaught exceptions: no call on the
    trusted-side client, no request-manager request, no console warning,
    hence no connect attempt and no operation handed over. *)
Theorem notifications_contact_nobody (events : list Event) (this : Provider) :
  forallb routed (trace (deliver events this)) = true /\
  connect_attempts (trace (deliver events this)) = 0 /\
  dispatched_keys (trace (deliver events this)) = [].
Proof.
  pose proof (deliver_routed events this) as H.
  destruct (routed_is_silent _ H) as (H1 & H2 & _). auto.
Qed.

(** X2. Handling one message emits at most one public event, and
    that event carries the message's [detail] unmodified. *)
Theorem notification_emits_at_most_once (event : Event) (this : Provider) :
  filter is_emit (trace (handleNotification event this)) = [] \/
  exists publicName : string,
    filter is_emit (trace (handleNotification event this)) =
    [Emit publicName (detail event)].
Proof.
  unfold_handlers.
  destruct (isValidEventOrigin event); cbn; [ | auto ].
  destruct (foreign_channel (type event)); cbn; [ auto | ].
  destruct (name (detail event)); cbn; eauto;
    unfold bind, deref;
    destruct (data (detail event)) as [d|]; cbn; auto;
    try (destruct (not_SOLANA (Data.blockchain d)); cbn; eauto;
         try destruct (Connection_throws _);
         try destruct (PublicKey_throws _); cbn; eauto);
    try (destruct (Data.publicKeys d); cbn; auto;
         destruct (Data.connectionUrls d); cbn; auto;
         destruct (PublicKey_throws _); cbn; eauto).
Qed.

(** X3. A message whose name is not one of the six with an
    assigning handler (disconnected, the two endpoint updates, active
    wallet, plugin connect, plugin key update) leaves the provider as it
    was: the extension's connected notification, mount, unmount, metadata
    and an unknown name change nothing. *)
Theorem passive_notifications_leave_provider
    (event : Event) (this : Provider) :
  state_changing (name (detail event)) = false ->
  after (handleNotification event this) = this.
Proof.
  intros H. unfold_handlers.
  destruct (isValidEventOrigin event); cbn; [ | reflexivity ].
  destruct (foreign_channel (type event)); cbn; [ reflexivity | ].
  destruct (name (detail event)); try discriminate H; reflexivity.
Qed.

(** X4. An accepted plugin-connect message whose payload has both
    tables puts the provider in the plugin context and marks it connected:
    [isConnected] and [isXnft] are [true] and the origin context is [xnft].
    When the SDK accepts the Solana entry of [publicKeys] as a key, the
    session is established: the handler returns, the account is that key,
    the connection is a background connection to the Solana entry of
    [connectionUrls] with the client bound to it, and the one public event
    is [connect] with the message's [detail].  When the SDK rejects the
    entry (it is missing or malformed), the handler throws what
    [new PublicKey] throws: account, connection and client are as before
    and nothing is emitted. *)
Theorem plugin_connect_establishes_session
    (event : Event) (this : Provider) (d : Data.t)
    (keys urls : Blockchain -> option string) :
  accepted event = true ->
  name (detail event) = PLUGIN_NOTIFICATION_CONNECT ->
  data (detail event) = Some d ->
  Data.publicKeys d = Some keys ->
  Data.connectionUrls d = Some urls ->
  let o := handleNotification event this in
  isConnected (after o) = true /\
  isXnft (after o) = true /\
  context (_secureClientOrigin (after o)) = xnft /\
  match PublicKey_throws (keys SOLANA) with
  | None =>
      completion o = Normal tt /\
      publicKey (after o) = Some (KeyObject (PublicKey_new (keys SOLANA))) /\
      connection (after o) =
        BackgroundSolanaConnection_new (_connectionRequestManager this)
          (urls SOLANA) /\
      client_connection (_secureSolanaClient (after o)) =
        connection (after o) /\
      filter is_emit (trace o) = [Emit "connect" (detail event)]
  | Some e =>
      completion o = Throw e /\
      after o =
        set_isConnected true
          (set_isXnft true (set_origin_context xnft this)) /\
      publicKey (after o) = publicKey this /\
      connection (after o) = connection this /\
      _secureSolanaClient (after o) = _secureSolanaClient this /\
      filter is_emit (trace o) = []
  end.
Proof.
  intros Hacc Hname Hdata Hkeys Hurls. cbn zeta.
  rewrite (accepted_dispatch _ _ Hacc), Hname.
  unfold handlePluginConnect, connect_, new_PublicKey, bind, deref.
  rewrite Hdata. cbn. rewrite Hkeys. cbn. rewrite Hurls. cbn.
  destruct (PublicKey_throws (keys SOLANA)); cbn; repeat split; reflexivity.
Qed.

(** X5. An accepted plugin-connect message with no payload, or
    with a payload missing [publicKeys] or [connectionUrls], throws a
    [TypeError] before any assignment: the provider is unchanged (it does
    not enter the plugin context) and nothing is emitted. *)
Theorem plugin_connect_without_tables_is_dropped
    (event : Event) (this : Provider) :
  accepted event = true ->
  name (detail event) = PLUGIN_NOTIFICATION_CONNECT ->
  match data (detail event) with
  | Some d =>
      Data.publicKeys d = None \/ Data.connectionUrls d = None
  | None => True
  end ->
  let o := handleNotification event this in
  (exists what : string, completion o = Throw (TypeError what)) /\
  after o = this /\
  filter is_emit (trace o) = [].
Proof.
  intros Hacc Hname Hbad. cbn zeta.
  rewrite (accepted_dispatch _ _ Hacc), Hname.
  unfold handlePluginConnect, bind, deref.
  destruct (data (detail event)) as [d|]; cbn; [ | eauto ].
  destruct (Data.publicKeys d) as [keys|]; cbn; [ | eauto ].
  destruct Hbad as [Hbad | Hbad]; [ discriminate Hbad | ].
  rewrite Hbad. cbn. eauto.
Qed.

(** X6. The plugin host's key update is applied whatever blockchain
    the payload names: [publicKey] becomes the raw payload key and nothing
    else changes; [isConnected] stays as it was, so a payload with no key or
    an empty one leaves the provider without an account; the public event
    is [publicKeyUpdate]. *)
Theorem plugin_key_update_is_not_filtered
    (event : Event) (this : Provider) (d : Data.t) :
  accepted event = true ->
  name (detail event) = PLUGIN_NOTIFICATION_SOLANA_PUBLIC_KEY_UPDATED ->
  data (detail event) = Some d ->
  let o := handleNotification event this in
  completion o = Normal tt /\
  after o = set_publicKey (option_map KeyRaw (Data.publicKey d)) this /\
  isConnected (after o) = isConnected this /\
  truthy (publicKey (after o)) =
    match Data.publicKey d with
    | Some key => negb (String.eqb key "")
    | None => false
    end /\
  filter is_emit (trace o) = [Emit "publicKeyUpdate" (detail event)].
Proof.
  intros Hacc Hname Hdata. cbn zeta.
  rewrite (accepted_dispatch _ _ Hacc), Hname.
  unfold handlePluginPublicKeyUpdated, bind, deref.
  rewrite Hdata. cbn. repeat split; try reflexivity.
  destruct (Data.publicKey d); reflexivity.
Qed.

(** X26. The extension's endpoint update for Solana.  When the SDK
    accepts the payload's [url] as an endpoint, the handler returns, the
    client is rebuilt over the sender on a plain connection to it, nothing
    else changes ([connection] in particular), and the one public event is
    [connectionDidChange].  When the SDK rejects it (it is missing or not
    an [http:] or [https:] address), the handler throws what
    [new Connection] throws after the logger line: the provider is
    unchanged and nothing is emitted. *)
Theorem extension_endpoint_update_rebuilds_client_only
    (event : Event) (this : Provider) (d : Data.t) :
  accepted event = true ->
  name (detail event) = NOTIFICATION_CONNECTION_URL_UPDATED ->
  data (detail event) = Some d ->
  Data.blockchain d = Some SOLANA ->
  let o := handleNotification event this in
  match Connection_throws (Data.url d) with
  | None =>
      completion o = Normal tt /\
      after o =
        set_secureSolanaClient
          (SolanaClient_new (_secureClientSender this)
             (Connection_new (Data.url d)))
          this /\
      connection (after o) = connection this /\
      filter is_emit (trace o) = [Emit "connectionDidChange" (detail event)]
  | Some e =>
      o = mkOutcome (Throw e) this [LoggerDebug "notification" event]
  end.
Proof.
  intros Hacc Hname Hdata Hchain. cbn zeta.
  rewrite (endpoint_update _ _ Hacc Hname Hdata Hchain).
  destruct (Connection_throws (Data.url d)); [ reflexivity | ].
  repeat split; reflexivity.
Qed.

End RouterMore.

Section MethodsMore.

Context {host : Host}.

Lemma guarded_bound (g : Guarded) (onConnect : Settled ConnectResult)
    (onResponse : Settled Response) (this : Provider) :
  truthy (_publicKey this) = true ->
  guarded g onConnect onResponse this =
  mkOutcome
    (match settles onResponse with inl r => Normal r | inr e => Throw e end)
    (after (deliver (during onResponse) this))
    (handover g this :: trace (deliver (during onResponse) this)).
Proof.
  intros Hkey. rewrite guarded_eq. cbn zeta. rewrite Hkey.
  cbn [negb when ret completion after trace]. rewrite Hkey, await_eq.
  reflexivity.
Qed.

Lemma handover_marks (g : Guarded) (this : Provider) :
  connect_mark (handover g this) = false /\
  operation_key (handover g this) =
    [nullish (option_map KeyObject (supplied_key g)) (_publicKey this)] /\
  operation_connection (handover g this) =
    [match g with
     | G_simulate _ _ _ (Some custom) _ => custom
     | G_simulate _ _ _ None _ => _connection this
     | _ => client_connection (_secureSolanaClient this)
     end].
Proof.
  destruct g as [? ? ? ? ?|? ? ? ? ?|? ? ? c ?|? ? ?|? ? ?|? ?];
    try destruct c; repeat split; reflexivity.
Qed.

(** X9. A guarded method called with an account bound makes no
    connect attempt, whatever [isConnected] says; it hands over one
    operation through the client bound at the call (for [simulate]: the
    caller's connection, else [connection]); its result is the reply or
    the rejection of the trusted side, unchanged, and it assigns nothing
    itself. *)
Theorem guarded_with_account_goes_straight
    (g : Guarded) (onConnect : Settled ConnectResult)
    (onResponse : Settled Response) (this : Provider) :
  truthy (publicKey this) = true ->
  let o := guarded g onConnect onResponse this in
  connect_attempts (trace o) = 0 /\
  completion o =
    match settles onResponse with
    | inl reply => Normal reply
    | inr reason => Throw reason
    end /\
  dispatched_connections (trace o) =
    [match g with
     | G_simulate _ _ _ (Some custom) _ => custom
     | G_simulate _ _ _ None _ => connection this
     | _ => client_connection (_secureSolanaClient this)
     end] /\
  after o = after (deliver (during onResponse) this).
Proof.
  unfold publicKey, connection. intros Hkey. cbn zeta.
  rewrite (guarded_bound g onConnect onResponse this Hkey).
  cbn [completion after trace].
  destruct (routed_is_silent _ (deliver_routed (during onResponse) this))
    as (H1 & _ & H3).
  destruct (handover_marks g this) as (Hm & _ & Hc).
  repeat split.
  - change (handover g this :: trace (deliver (during onResponse) this))
      with ([handover g this] ++ trace (deliver (during onResponse) this)).
    rewrite connect_attempts_app, H1.
    unfold connect_attempts. cbn. rewrite Hm. reflexivity.
  - change (dispatched_connections
              (handover g this :: trace (deliver (during onResponse) this)))
      with (operation_connection (handover g this)
            ++ dispatched_connections
                 (trace (deliver (during onResponse) this))).
    rewrite H3, Hc. reflexivity.
Qed.

(** X10. On a provider whose [isConnected] is [true] and whose
    account is missing, every guarded method fails with
    [Error "wallet not connected"], leaves the provider unchanged, and its
    only effect is the warning of [connect()]: no request leaves. *)
Theorem connected_without_account_is_stuck
    (g : Guarded) (onConnect : Settled ConnectResult)
    (onResponse : Settled Response) (this : Provider) :
  isConnected this = true ->
  truthy (publicKey this) = false ->
  guarded g onConnect onResponse this =
  mkOutcome (Throw (Error "wallet not connected")) this
    [ConsoleWarn "provider already connected"].
Proof.
  unfold isConnected, publicKey. intros Hconn Hkey.
  rewrite guarded_eq. cbn zeta. rewrite Hkey. cbn [negb when].
  rewrite (connect_connected onConnect this Hconn).
  cbn [completion after trace]. rewrite Hkey. reflexivity.
Qed.

(** X27. When the trusted side resolves the connect request with a
    key the SDK rejects, and no account is bound when the reply arrives,
    [connect()] throws what [new PublicKey] throws with [isConnected]
    already [true].  The provider is then stuck: a further [connect()] only
    warns, and every guarded method fails with
    [Error "wallet not connected"] without a request leaving. *)
Theorem rejected_reply_key_leaves_provider_stuck
    (onConnect again : Settled ConnectResult) (reply : ConnectResult)
    (e : Exn) (g : Guarded) (onResponse : Settled Response)
    (this : Provider) :
  isConnected this = false ->
  settles onConnect = inl reply ->
  PublicKey_throws (Some (result_publicKey reply)) = Some e ->
  truthy (publicKey (after (deliver (during onConnect) this))) = false ->
  let stuck := after (connect onConnect this) in
  completion (connect onConnect this) = Throw e /\
  isConnected stuck = true /\
  truthy (publicKey stuck) = false /\
  connect again stuck =
    mkOutcome (Normal tt) stuck [ConsoleWarn "provider already connected"] /\
  guarded g again onResponse stuck =
    mkOutcome (Throw (Error "wallet not connected")) stuck
      [ConsoleWarn "provider already connected"].
Proof.
  unfold isConnected, publicKey. intros Hconn Hreply Hkey Hnone. cbn zeta.
  rewrite (connect_disconnected onConnect this Hconn). cbn zeta.
  rewrite Hreply, Hkey. cbn [completion after].
  set (stuck := set_isConnected true (after (deliver (during onConnect) this))).
  assert (Hflag : _isConnected stuck = true) by reflexivity.
  assert (Hkeyless : truthy (_publicKey stuck) = false) by exact Hnone.
  split; [ reflexivity | split; [ exact Hflag | split; [ exact Hkeyless | ] ] ].
  split; [ apply connect_connected, Hflag | ].
  rewrite guarded_eq. cbn zeta. rewrite Hkeyless. cbn [negb when].
  rewrite (connect_connected again stuck Hflag).
  cbn [completion after trace]. rewrite Hkeyless. reflexivity.
Qed.

(** X7. The extension's active-wallet update for Solana.  When the
    SDK accepts the payload's [activeWallet] as a key, the handler returns
    and emits [activeWalletDidChange], the provider differs only in
    [publicKey], and a guarded method called next without a key of its own
    makes no connect attempt and hands its operation over with the new
    wallet's key.  When the SDK rejects it (it is missing or malformed),
    the handler throws what [new PublicKey] throws after the logger line:
    the old account stays, the provider is unchanged and nothing is
    emitted. *)
Theorem active_wallet_update_feeds_next_operation
    (event : Event) (this : Provider) (d : Data.t) (g : Guarded)
    (onConnect : Settled ConnectResult) (onResponse : Settled Response) :
  accepted event = true ->
  name (detail event) = NOTIFICATION_ACTIVE_WALLET_UPDATED ->
  data (detail event) = Some d ->
  Data.blockchain d = Some SOLANA ->
  supplied_key g = None ->
  let o := handleNotification event this in
  let updated := after o in
  match PublicKey_throws (Data.activeWallet d) with
  | None =>
      completion o = Normal tt /\
      filter is_emit (trace o) =
        [Emit "activeWalletDidChange" (detail event)] /\
      updated =
        set_publicKey
          (Some (KeyObject (PublicKey_new (Data.activeWallet d)))) this /\
      connect_attempts (trace (guarded g onConnect onResponse updated)) = 0 /\
      dispatched_keys (trace (guarded g onConnect onResponse updated)) =
        [Some (KeyObject (PublicKey_new (Data.activeWallet d)))]
  | Some e =>
      o = mkOutcome (Throw e) this [LoggerDebug "notification" event]
  end.
Proof.
  intros Hacc Hname Hdata Hchain Hnone. cbn zeta.
  assert (Hupd : handleNotification event this =
                 match PublicKey_throws (Data.activeWallet d) with
                 | None =>
                     mkOutcome (Normal tt)
                       (set_publicKey
                          (Some (KeyObject
                                   (PublicKey_new (Data.activeWallet d))))
                          this)
                       [LoggerDebug "notification" event;
                        Emit "activeWalletDidChange" (detail event)]
                 | Some e =>
                     mkOutcome (Throw e) this
                       [LoggerDebug "notification" event]
                 end).
  { rewrite (accepted_dispatch _ _ Hacc), Hname.
    unfold handleNotificationActiveWalletUpdated, new_PublicKey, bind, deref.
    rewrite Hdata. cbn. rewrite Hchain. cbn.
    destruct (PublicKey_throws (Data.activeWallet d)); reflexivity. }
  rewrite Hupd.
  destruct (PublicKey_throws (Data.activeWallet d)); [ reflexivity | ].
  cbn [completion after trace].
  split; [ reflexivity | split; [ reflexivity | split; [ reflexivity | ] ] ].
  rewrite guarded_bound by reflexivity. cbn [trace].
  match goal with
  | |- context [deliver ?l ?s] =>
      destruct (routed_is_silent _ (deliver_routed l s)) as (H1 & H2 & _)
  end.
  match goal with
  | |- context [handover g ?s] =>
      destruct (handover_marks g s) as (Hm & Hk & _)
  end.
  split.
  - match goal with
    | |- connect_attempts (?e :: ?t) = _ =>
        change (e :: t) with ([e] ++ t); rewrite connect_attempts_app, H1;
        unfold connect_attempts; cbn [filter length]; rewrite Hm
    end.
    reflexivity.
  - rewrite dispatched_keys_cons, H2, Hk, Hnone. reflexivity.
Qed.

(** X8. After the plugin host's endpoint update for Solana, with an
    account bound, [connection] is a background connection to the new
    endpoint, [isConnected] and [publicKey] are as before, and every
    guarded method, [simulate] included, goes through the new connection
    (or through the caller's own connection when [simulate] is given
    one). *)
Theorem plugin_endpoint_update_moves_every_operation
    (event : Event) (this : Provider) (d : Data.t) (g : Guarded)
    (onConnect : Settled ConnectResult) (onResponse : Settled Response) :
  accepted event = true ->
  name (detail event) = PLUGIN_NOTIFICATION_CONNECTION_URL_UPDATED ->
  data (detail event) = Some d ->
  Data.blockchain d = Some SOLANA ->
  truthy (publicKey this) = true ->
  let updated := after (handleNotification event this) in
  let moved :=
    BackgroundSolanaConnection_new (_connectionRequestManager this)
      (Data.url d) in
  connection updated = moved /\
  isConnected updated = isConnected this /\
  publicKey updated = publicKey this /\
  dispatched_connections
    (trace (guarded g onConnect onResponse updated)) =
  [match g with
   | G_simulate _ _ _ (Some custom) _ => custom
   | _ => moved
   end].
Proof.
  unfold publicKey, connection, isConnected.
  intros Hacc Hname Hdata Hchain Hkey. cbn zeta.
  rewrite (plugin_endpoint_update _ _ Hacc Hname Hdata Hchain).
  cbn [after]. repeat split.
  rewrite guarded_bound by exact Hkey. cbn [trace].
  match goal with
  | |- context [deliver ?l ?s] =>
      destruct (routed_is_silent _ (deliver_routed l s)) as (_ & _ & H3)
  end.
  match goal with
  | |- dispatched_connections (?e :: ?t) = _ =>
      change (dispatched_connections (e :: t))
        with (operation_connection e ++ dispatched_connections t);
      rewrite H3
  end.
  destruct g as [? ? ? ? ?|? ? ? ? ?|? ? ? c ?|? ? ?|? ? ?|? ?];
    try destruct c; reflexivity.
Qed.

End MethodsMore.

Section Sessions.

Context {host : Host}.

Lemma wiring_stable (w : Options * RequestManager * RequestManager
                         * RequestManager * bool * Sender) :
  stable (fun this => wiring this = w).
Proof. intros this H. repeat split; intros; exact H. Qed.

Lemma wiring_plugin_connect
    (w : Options * RequestManager * RequestManager * RequestManager * bool
         * Sender) (event : Event) :
  keeps (fun this => wiring this = w) (handlePluginConnect event).
Proof.
  unfold handlePluginConnect, connect_, new_PublicKey, emit.
  walk_method; assumption.
Qed.

Lemma deliver_wiring (events : list Event) (this : Provider) :
  wiring (after (deliver events this)) = wiring this.
Proof.
  apply (deliver_keeps (P := fun p => wiring p = wiring this)); [ | reflexivity ].
  apply handleNotification_keeps;
    [ apply wiring_stable | apply wiring_plugin_connect ].
Qed.

(** X17. No sequence of messages and calls changes [options], the
    three request managers, [isBackpack] or the transport sender. *)
Theorem wiring_is_never_reassigned (actions : list Action) (this : Provider) :
  wiring (after (run actions this)) = wiring this.
Proof.
  apply (run_keeps (P := fun p => wiring p = wiring this));
    [ apply wiring_stable | apply wiring_plugin_connect | reflexivity ].
Qed.

Lemma origin_stable : stable origin_matches_context.
Proof.
  intros this H. split; [ | split; [ | split ] ]; intros ?; exact H.
Qed.

Lemma origin_plugin_connect (event : Event) :
  keeps origin_matches_context (handlePluginConnect event).
Proof.
  intros this H.
  unfold handlePluginConnect, connect_, new_PublicKey, emit, bind, deref.
  destruct (data (detail event)) as [d|]; cbn; [ | exact H ].
  destruct (Data.publicKeys d) as [keys|]; cbn; [ | exact H ].
  destruct (Data.connectionUrls d); cbn; [ | exact H ].
  destruct (PublicKey_throws (keys SOLANA)); cbn; split; reflexivity.
Qed.

(** X18. After any sequence of messages and calls on a fresh
    provider, the origin handed to the trusted side has context [xnft]
    exactly when [isXnft] is [true]. *)
Theorem origin_context_matches_isXnft (actions : list Action) :
  let this := after (run actions constructor) in
  context (_secureClientOrigin this) = xnft <-> isXnft this = true.
Proof.
  cbn zeta.
  apply (run_keeps (P := origin_matches_context));
    [ apply origin_stable | apply origin_plugin_connect | ].
  split; discriminate.
Qed.

Lemma run_keeps_embedded (actions : list Action) :
  keeps embedded (run actions).
Proof.
  induction actions as [|a rest IH]; cbn [run].
  - apply keeps_ret.
  - apply keeps_bind; [ apply act_keeps_isXnft | intros _; exact IH ].
Qed.

Lemma openXnft_embedded (xnftAddress : string) (onRequest : Settled unit)
    (this : Provider) :
  _isXnft this = true ->
  openXnft xnftAddress onRequest this =
  mkOutcome (Throw (Error "xnft context: use window.xnft.openPlugin instead"))
    this [].
Proof. intros H. unfold openXnft. rewrite bind_get, H. reflexivity. Qed.

Lemma openXnft_standalone (xnftAddress : string) (onRequest : Settled unit)
    (this : Provider) :
  _isXnft this = false ->
  openXnft xnftAddress onRequest this =
  mkOutcome
    (match settles onRequest with inl _ => Normal tt | inr e => Throw e end)
    (after (deliver (during onRequest) this))
    (ManagerRequest (_requestManager this) SOLANA_RPC_METHOD_OPEN_XNFT
       [xnftAddress]
     :: trace (deliver (during onRequest) this)).
Proof.
  intros H. unfold openXnft. rewrite bind_get, H, bind_tell, await_eq.
  cbn. destruct (settles onRequest) as [[]|e]; reflexivity.
Qed.

(** X15. Once the provider is in the plugin context, after any
    sequence of messages and calls [disconnect()] is a warning that changes
    nothing and [openXnft()] throws without sending a request. *)
Theorem plugin_context_disables_disconnect_and_openXnft
    (actions : list Action) (this : Provider)
    (onDisconnect : Settled unit) (xnftAddress : string)
    (onRequest : Settled unit) :
  isXnft this = true ->
  let later := after (run actions this) in
  disconnect onDisconnect later =
    mkOutcome (Normal tt) later [ConsoleWarn "xnft can't be disconnected"] /\
  openXnft xnftAddress onRequest later =
    mkOutcome
      (Throw (Error "xnft context: use window.xnft.openPlugin instead"))
      later [].
Proof.
  unfold isXnft. intros H. cbn zeta.
  pose proof (@run_keeps_embedded actions this H) as Hlater.
  split; [ apply disconnect_embedded | apply openXnft_embedded ];
    exact Hlater.
Qed.

(** X11. [connect()] on a provider that is not connected, when the
    trusted side resolves: the request goes through the client bound at
    the call (after the warning [xnft already connected] in the plugin
    context), and afterwards [isConnected] is [true].  When the SDK accepts
    the reply's key, [connect()] returns, the account is the reply's key,
    and connection and client are a background connection to the reply's
    endpoint over the connection request manager.  When the SDK rejects
    the key, [connect()] throws what [new PublicKey] throws: account,
    connection and client are what the messages delivered meanwhile left,
    and only the flag was assigned. *)
Theorem connect_binds_the_reply
    (onConnect : Settled ConnectResult) (reply : ConnectResult)
    (this : Provider) :
  isConnected this = false ->
  settles onConnect = inl reply ->
  let o := connect onConnect this in
  let waited := after (deliver (during onConnect) this) in
  isConnected (after o) = true /\
  trace o =
    (if isXnft this then [ConsoleWarn "xnft already connected"] else []) ++
    ClientCall (_secureSolanaClient this) Req_connect
    :: trace (deliver (during onConnect) this) /\
  match PublicKey_throws (Some (result_publicKey reply)) with
  | None =>
      completion o = Normal tt /\
      publicKey (after o) =
        Some (KeyObject (PublicKey_new (Some (result_publicKey reply)))) /\
      connection (after o) =
        BackgroundSolanaConnection_new (_connectionRequestManager this)
          (Some (result_connectionUrl reply)) /\
      client_connection (_secureSolanaClient (after o)) =
        connection (after o)
  | Some e =>
      completion o = Throw e /\
      after o = set_isConnected true waited /\
      publicKey (after o) = publicKey waited /\
      connection (after o) = connection waited /\
      _secureSolanaClient (after o) = _secureSolanaClient waited
  end.
Proof.
  unfold isConnected, publicKey, connection, isXnft. intros Hconn Hreply.
  cbn zeta. rewrite (connect_disconnected onConnect this Hconn). cbn zeta.
  rewrite Hreply.
  pose proof (deliver_wiring (during onConnect) this) as Hw.
  unfold wiring in Hw. injection Hw as _ _ Hmgr _ _ _.
  destruct (PublicKey_throws (Some (result_publicKey reply)));
    cbn [completion after trace]; unfold bound; cbn; rewrite ?Hmgr;
    repeat split; reflexivity.
Qed.

(** X12. When the trusted side rejects the connect request,
    [connect()] throws the rejection and assigns nothing: the provider is
    what the messages delivered meanwhile left, and unchanged when there
    were none. *)
Theorem connect_rejection_assigns_nothing
    (onConnect : Settled ConnectResult) (reason : Exn) (this : Provider) :
  isConnected this = false ->
  settles onConnect = inr reason ->
  completion (connect onConnect this) = Throw reason /\
  after (connect onConnect this) = after (deliver (during onConnect) this) /\
  (during onConnect = [] -> after (connect onConnect this) = this).
Proof.
  unfold isConnected. intros Hconn Hreply.
  rewrite (connect_disconnected onConnect this Hconn). cbn zeta.
  rewrite Hreply. cbn [completion after].
  repeat split. intros Hnone. rewrite Hnone. reflexivity.
Qed.

(** X13. When the trusted side rejects the disconnect request,
    [disconnect()] outside the plugin context throws the rejection and
    clears nothing: the provider is what the messages delivered meanwhile
    left, and unchanged when there were none. *)
Theorem disconnect_rejection_clears_nothing
    (onDisconnect : Settled unit) (reason : Exn) (this : Provider) :
  isXnft this = false ->
  settles onDisconnect = inr reason ->
  completion (disconnect onDisconnect this) = Throw reason /\
  after (disconnect onDisconnect this) =
    after (deliver (during onDisconnect) this) /\
  (during onDisconnect = [] -> after (disconnect onDisconnect this) = this).
Proof.
  unfold isXnft. intros Hx Hreply.
  rewrite (disconnect_standalone onDisconnect this Hx). cbn zeta.
  rewrite Hreply. cbn [completion after].
  repeat split. intros Hnone. rewrite Hnone. reflexivity.
Qed.

(** X14. On a provider at rest outside the plugin context (not
    connected, no account, connection and client on the default endpoint),
    [connect()] followed by [disconnect()], both resolved, gives back the
    provider it started from. *)
Theorem connect_then_disconnect_is_identity
    (reply : ConnectResult) (this : Provider) :
  isXnft this = false ->
  isConnected this = false ->
  publicKey this = None ->
  connection this = defaultConnection ->
  _secureSolanaClient this =
    SolanaClient_new (_secureClientSender this) defaultConnection ->
  after (disconnect (resolved tt) (after (connect (resolved reply) this))) =
  this.
Proof.
  unfold isXnft, isConnected, publicKey, connection.
  intros Hx Hc Hk Hcn Hcl.
  rewrite (connect_disconnected _ _ Hc). cbn zeta.
  cbn [resolved settles during deliver ret after].
  destruct (PublicKey_throws (Some (result_publicKey reply)));
    cbn [after];
    (rewrite disconnect_standalone by exact Hx); cbn zeta;
    cbn [resolved settles during deliver ret after];
    destruct this; cbn in *; subst; reflexivity.
Qed.

(** X16. The methods without the account check never attempt a
    connect.  [prepareSolanaOffchainMessage] hands its request (encoding
    [UTF-8] and length 1212 unless given) to the bound client and returns
    the reply or rejection unchanged; that call is all that leaves the
    provider.  [openXnft] outside the plugin context sends exactly one
    request, [SOLANA_RPC_METHOD_OPEN_XNFT] with the address, through the
    request manager, and returns or throws as that request settles; in the
    plugin context it throws, sends nothing and leaves the provider as it
    is.  [sendAll] always throws [Error "sendAll not implemented"] with the
    provider unchanged. *)
Theorem unguarded_methods_never_connect (this : Provider) :
  (forall (message : Bytes) (encoding : option string)
          (maxLength : option nat) (onResponse : Settled Response),
     let o := prepareSolanaOffchainMessage message encoding maxLength
                onResponse this in
     let request :=
       ClientCall (_secureSolanaClient this)
         (Req_prepareSolanaOffchainMessage message
            (match encoding with Some e => e | None => "UTF-8" end)
            (match maxLength with Some n => n | None => 1212 end)) in
     connect_attempts (trace o) = 0 /\
     completion o =
       match settles onResponse with
       | inl reply => Normal reply
       | inr reason => Throw reason
       end /\
     hd_error (trace o) = Some request /\
     trace o = request :: trace (deliver (during onResponse) this) /\
     outgoing (trace o) = [request] /\
     after o = after (deliver (during onResponse) this)) /\
  (forall (xnftAddress : string) (onRequest : Settled unit),
     let o := openXnft xnftAddress onRequest this in
     let request :=
       ManagerRequest (_requestManager this) SOLANA_RPC_METHOD_OPEN_XNFT
         [xnftAddress] in
     connect_attempts (trace o) = 0 /\
     dispatched_keys (trace o) = [] /\
     outgoing (trace o) = (if isXnft this then [] else [request]) /\
     o =
       if isXnft this then
         mkOutcome
           (Throw (Error "xnft context: use window.xnft.openPlugin instead"))
           this []
       else
         mkOutcome
           (match settles onRequest with
            | inl _ => Normal tt
            | inr reason => Throw reason
            end)
           (after (deliver (during onRequest) this))
           (request :: trace (deliver (during onRequest) this))) /\
  (forall (txWithSigners : list (Transaction * Signers)) (opts : Options)
          (connection : option Connection) (publicKey : option PublicKey),
     sendAll txWithSigners opts connection publicKey this =
     mkOutcome (Throw (Error "sendAll not implemented")) this []).
Proof.
  split; [ | split ].
  - intros message encoding maxLength onResponse. cbn zeta.
    unfold prepareSolanaOffchainMessage. rewrite client_call_eq.
    cbn [completion after trace hd_error].
    pose proof (deliver_routed (during onResponse) this) as Hrouted.
    destruct (routed_is_silent _ Hrouted) as (H1 & _ & _).
    split; [ | split; [ reflexivity | split; [ reflexivity | ] ] ].
    + match goal with
      | |- connect_attempts (?e :: ?t) = _ =>
          change (e :: t) with ([e] ++ t); rewrite connect_attempts_app, H1
      end.
      reflexivity.
    + split; [ reflexivity | split; [ | reflexivity ] ].
      unfold outgoing. cbn [filter routed negb].
      fold (outgoing (trace (deliver (during onResponse) this))).
      rewrite (routed_is_not_outgoing _ Hrouted). reflexivity.
  - intros xnftAddress onRequest. cbn zeta. unfold isXnft.
    destruct (_isXnft this) eqn:Hx.
    + rewrite (openXnft_embedded _ _ _ Hx). repeat split; reflexivity.
    + rewrite (openXnft_standalone _ _ _ Hx). cbn [trace].
      pose proof (deliver_routed (during onRequest) this) as Hrouted.
      destruct (routed_is_silent _ Hrouted) as (H1 & H2 & _).
      split; [ | split; [ | split; [ | reflexivity ] ] ].
      * match goal with
        | |- connect_attempts (?e :: ?t) = _ =>
            change (e :: t) with ([e] ++ t);
            rewrite connect_attempts_app, H1
        end.
        reflexivity.
      * rewrite dispatched_keys_cons, H2. reflexivity.
      * unfold outgoing. cbn [filter routed negb].
        fold (outgoing (trace (deliver (during onRequest) this))).
        rewrite (routed_is_not_outgoing _ Hrouted). reflexivity.
  - reflexivity.
Qed.

End Sessions.

Section ClientBinding.

Context {host : Host}.

Lemma follows_bound (publicKey connectionUrl : option string)
    (this : Provider) :
  client_follows_connection (bound publicKey connectionUrl this).
Proof. reflexivity. Qed.

Lemma follows_cleared (this : Provider) :
  client_follows_connection (cleared this).
Proof. reflexivity. Qed.

Lemma handleNotification_follows (event : Event) :
  extension_endpoint_update event = false ->
  keeps client_follows_connection (handleNotification event).
Proof.
  unfold extension_endpoint_update, client_follows_connection.
  intros Hname this H. unfold_handlers.
  destruct (isValidEventOrigin event); cbn; [ | exact H ].
  destruct (foreign_channel (type event)); cbn; [ exact H | ].
  destruct (name (detail event)); try discriminate Hname; cbn;
    try exact H; try reflexivity;
    unfold bind, deref;
    destruct (data (detail event)) as [d|]; cbn; try exact H;
    try (destruct (not_SOLANA (Data.blockchain d)); cbn;
         try exact H; try destruct (PublicKey_throws _); cbn;
         try exact H; reflexivity);
    try (destruct (Data.publicKeys d); cbn; try exact H;
         destruct (Data.connectionUrls d); cbn; try exact H;
         destruct (PublicKey_throws _); cbn; try exact H; reflexivity).
Qed.

Lemma deliver_follows (events : list Event) :
  calm events = true ->
  keeps client_follows_connection (deliver events).
Proof.
  induction events as [|event rest IH]; cbn; intros Hcalm.
  - apply keeps_ret.
  - apply andb_prop in Hcalm. destruct Hcalm as [He Hrest].
    apply negb_true_iff in He.
    apply keeps_bind;
      [ apply listener_keeps, handleNotification_follows, He
      | intros _; apply IH, Hrest ].
Qed.

Lemma connect_follows (onConnect : Settled ConnectResult) :
  calm (during onConnect) = true ->
  keeps client_follows_connection (connect onConnect).
Proof.
  intros Hcalm this H. destruct (_isConnected this) eqn:Hconn.
  - rewrite (connect_connected _ _ Hconn). exact H.
  - rewrite (connect_disconnected _ _ Hconn). cbn zeta.
    destruct (settles onConnect) as [result|e];
      [ destruct (PublicKey_throws (Some (result_publicKey result))) | ];
      cbn [after].
    + apply (deliver_follows _ Hcalm), H.
    + apply follows_bound.
    + apply (deliver_follows _ Hcalm), H.
Qed.

Lemma settle_after (A : Type) (m : M A) (this : Provider) :
  after (settle m this) = after (m this).
Proof. unfold settle. destruct (m this). reflexivity. Qed.

Lemma call_follows (c : Call) :
  calm (messages_of_call c) = true ->
  keeps client_follows_connection (call c).
Proof.
  destruct c as [oc | od | addr orq | g oc ors | ? ? ? ? | msg enc len ors];
    cbn [call messages_of_call]; intros Hcalm this H; rewrite settle_after.
  - apply (connect_follows _ Hcalm), H.
  - destruct (_isXnft this) eqn:Hx.
    + rewrite (disconnect_embedded _ _ Hx). exact H.
    + rewrite (disconnect_standalone _ _ Hx). cbn zeta.
      destruct (settles od); cbn [after].
      * apply follows_cleared.
      * apply (deliver_follows _ Hcalm), H.
  - destruct (_isXnft this) eqn:Hx.
    + rewrite (openXnft_embedded _ _ _ Hx). exact H.
    + rewrite (openXnft_standalone _ _ _ Hx). cbn [after].
      apply (deliver_follows _ Hcalm), H.
  - unfold calm in Hcalm. rewrite forallb_app in Hcalm.
    apply andb_prop in Hcalm. destruct Hcalm as [Hc Hr].
    assert (Hattempt : client_follows_connection
                         (after (when (negb (truthy (_publicKey this)))
                                   (connect oc) this))).
    { unfold when. destruct (negb (truthy (_publicKey this))).
      - apply (connect_follows _ Hc), H.
      - exact H. }
    rewrite guarded_eq. cbn zeta.
    set (attempt := when (negb (truthy (_publicKey this))) (connect oc) this)
      in *.
    destruct (completion attempt); cbn [after]; [ | exact Hattempt ].
    destruct (truthy (_publicKey (after attempt))); cbn [after];
      [ | exact Hattempt ].
    rewrite await_eq. cbn [after].
    apply (deliver_follows _ Hr), Hattempt.
  - exact H.
  - unfold prepareSolanaOffchainMessage. rewrite client_call_eq.
    cbn [after]. apply (deliver_follows _ Hcalm), H.
Qed.

(** X19. On a fresh provider, as long as no message with the name
    of the extension's endpoint update is delivered (directly or while a
    call is pending), the client is the one built over the sender and the
    current [connection]. *)
Theorem client_follows_connection_until_endpoint_update
    (actions : list Action) :
  forallb (fun a =>
             forallb (fun event => negb (extension_endpoint_update event))
               (messages_of a)) actions = true ->
  let this := after (run actions constructor) in
  _secureSolanaClient this =
    SolanaClient_new (_secureClientSender this) (connection this) /\
  client_connection (_secureSolanaClient this) = connection this.
Proof.
  intros Hcalm. cbn zeta.
  assert (H : client_follows_connection (after (run actions constructor))).
  { assert (Hfresh : client_follows_connection constructor) by reflexivity.
    revert Hcalm Hfresh. generalize constructor as this.
    induction actions as [|a rest IH]; intros this Hcalm H; cbn [run].
    - exact H.
    - cbn in Hcalm. apply andb_prop in Hcalm. destruct Hcalm as [Ha Hrest].
      apply (@keeps_bind unit unit client_follows_connection (act a)
               (fun _ => run rest)); [ | | exact H ].
      + destruct a as [event | c]; cbn [act messages_of] in *.
        * cbn in Ha. rewrite andb_true_r in Ha. apply negb_true_iff in Ha.
          apply listener_keeps, handleNotification_follows, Ha.
        * apply call_follows, Ha.
      + intros _ s Hs. apply IH; assumption. }
  unfold client_follows_connection in H. unfold connection.
  split; [ exact H | rewrite H; reflexivity ].
Qed.

End ClientBinding.

(** ** The statements on the sample page *)

Lemma passive_notifications_leave_provider_witness :
  after (@handleNotification page
           (notification CHANNEL_PLUGIN_NOTIFICATION
              PLUGIN_NOTIFICATION_MOUNT None)
           connected_page) = connected_page.
Proof. apply (@passive_notifications_leave_provider page). reflexivity. Defined.

Lemma plugin_connect_establishes_session_witness :
  let o := @handleNotification page plugin_connect_message
             (@constructor page) in
  let refused := @handleNotification page malformed_plugin_connect_message
                   (@constructor page) in
  (completion o = Normal tt /\
   isConnected (after o) = true /\
   isXnft (after o) = true /\
   publicKey (after o) =
     Some (KeyObject
             (PublicKey_new (Some "11111111111111111111111111111111"))) /\
   filter is_emit (trace o) =
     [Emit "connect" (detail plugin_connect_message)]) /\
  (completion refused = Throw (Error "Invalid public key input") /\
   isConnected (after refused) = true /\
   isXnft (after refused) = true /\
   publicKey (after refused) = None /\
   connection (after refused) = @defaultConnection page /\
   filter is_emit (trace refused) = []).
Proof.
  cbn zeta. split.
  - destruct (@plugin_connect_establishes_session page plugin_connect_message
                (@constructor page) plugin_connect_payload
                (solana_only "11111111111111111111111111111111")
                (solana_only "https://rpc.old.example")
                eq_refl eq_refl eq_refl eq_refl eq_refl)
      as (Hflag & Hxnft & _ & Hdone & Hkey & _ & _ & Hemit).
    split; [ exact Hdone | split; [ exact Hflag | split; [ exact Hxnft | ] ] ].
    split; [ exact Hkey | exact Hemit ].
  - destruct (@plugin_connect_establishes_session page
                malformed_plugin_connect_message (@constructor page)
                malformed_plugin_connect_payload
                (solana_only "Key1") (solana_only "https://rpc.old.example")
                eq_refl eq_refl eq_refl eq_refl eq_refl)
      as (Hflag & Hxnft & _ & Hthrown & _ & Hkey & Hconn & _ & Hemit).
    split; [ exact Hthrown | split; [ exact Hflag | split; [ exact Hxnft | ] ] ].
    split; [ exact Hkey | split; [ exact Hconn | exact Hemit ] ].
Defined.

Lemma plugin_connect_without_tables_is_dropped_witness :
  let event := notification CHANNEL_PLUGIN_NOTIFICATION
                 PLUGIN_NOTIFICATION_CONNECT
                 (Some (Data.make None None None None
                          (Some (solana_only "11111111111111111111111111111111")) None)) in
  after (@handleNotification page event (@constructor page)) =
    @constructor page /\
  isXnft (after (@handleNotification page event (@constructor page))) = false.
Proof.
  cbn zeta.
  destruct (@plugin_connect_without_tables_is_dropped page
              (notification CHANNEL_PLUGIN_NOTIFICATION
                 PLUGIN_NOTIFICATION_CONNECT
                 (Some (Data.make None None None None
                          (Some (solana_only "11111111111111111111111111111111")) None)))
              (@constructor page) eq_refl eq_refl (or_intror eq_refl))
    as (_ & H & _).
  split; [ exact H | rewrite H; reflexivity ].
Defined.

Lemma plugin_key_update_is_not_filtered_witness :
  let d := Data.make (Some ETHEREUM) None None (Some "0xEthereumKey")
             None None in
  let event := notification CHANNEL_PLUGIN_NOTIFICATION
                 PLUGIN_NOTIFICATION_SOLANA_PUBLIC_KEY_UPDATED (Some d) in
  after (@handleNotification page event embedded_page) =
    set_publicKey (Some (KeyRaw "0xEthereumKey")) embedded_page.
Proof.
  cbn zeta.
  apply (@plugin_key_update_is_not_filtered page
           (notification CHANNEL_PLUGIN_NOTIFICATION
              PLUGIN_NOTIFICATION_SOLANA_PUBLIC_KEY_UPDATED
              (Some (Data.make (Some ETHEREUM) None None
                       (Some "0xEthereumKey") None None)))
           embedded_page
           (Data.make (Some ETHEREUM) None None (Some "0xEthereumKey")
              None None) eq_refl eq_refl eq_refl).
Defined.

Lemma active_wallet_update_feeds_next_operation_witness :
  let event := notification CHANNEL_SOLANA_NOTIFICATION
                 NOTIFICATION_ACTIVE_WALLET_UPDATED (Some solana_payload) in
  let updated := after (@handleNotification page event connected_page) in
  let walletless := notification CHANNEL_SOLANA_NOTIFICATION
                      NOTIFICATION_ACTIVE_WALLET_UPDATED
                      (Some walletless_payload) in
  (publicKey updated =
     Some (KeyObject
             (PublicKey_new
                (Some "TokenkegQfeZyiNwAJbNbGKPFXCWuBvf9Ss623VQ5DA"))) /\
   dispatched_keys
     (trace (@guarded page (G_signMessage "hello" None)
               (resolved
                  (mkConnectResult
                     "So11111111111111111111111111111111111111112"
                     "https://rpc.example"))
               (resolved "signature") updated)) =
   [Some (KeyObject
            (PublicKey_new
               (Some "TokenkegQfeZyiNwAJbNbGKPFXCWuBvf9Ss623VQ5DA")))]) /\
  @handleNotification page walletless connected_page =
  mkOutcome (Throw (TypeError "Cannot read properties of undefined"))
    connected_page [LoggerDebug "notification" walletless].
Proof.
  cbn zeta. split.
  - destruct (@active_wallet_update_feeds_next_operation page
                (notification CHANNEL_SOLANA_NOTIFICATION
                   NOTIFICATION_ACTIVE_WALLET_UPDATED (Some solana_payload))
                connected_page solana_payload (G_signMessage "hello" None)
                (resolved
                   (mkConnectResult
                      "So11111111111111111111111111111111111111112"
                      "https://rpc.example"))
                (resolved "signature")
                eq_refl eq_refl eq_refl eq_refl eq_refl)
      as (_ & _ & Hupdated & _ & Hkeys).
    split; [ rewrite Hupdated; reflexivity | exact Hkeys ].
  - apply (@active_wallet_update_feeds_next_operation page
             (notification CHANNEL_SOLANA_NOTIFICATION
                NOTIFICATION_ACTIVE_WALLET_UPDATED (Some walletless_payload))
             connected_page walletless_payload (G_signMessage "hello" None)
             (resolved
                (mkConnectResult
                   "So11111111111111111111111111111111111111112"
                   "https://rpc.example"))
             (resolved "signature")
             eq_refl eq_refl eq_refl eq_refl eq_refl).
Defined.

Lemma extension_endpoint_update_rebuilds_client_only_witness :
  let event := notification CHANNEL_SOLANA_NOTIFICATION
                 NOTIFICATION_CONNECTION_URL_UPDATED (Some solana_payload) in
  let o := @handleNotification page event connected_page in
  let websocket := notification CHANNEL_SOLANA_NOTIFICATION
                     NOTIFICATION_CONNECTION_URL_UPDATED
                     (Some websocket_payload) in
  (completion o = Normal tt /\
   client_connection (_secureSolanaClient (after o)) =
     Connection_new (Some "https://rpc.new.example") /\
   connection (after o) = connection connected_page) /\
  @handleNotification page websocket connected_page =
  mkOutcome
    (Throw (TypeError "Endpoint URL must start with `http:` or `https:`."))
    connected_page [LoggerDebug "notification" websocket].
Proof.
  cbn zeta. split.
  - destruct (@extension_endpoint_update_rebuilds_client_only page
                (notification CHANNEL_SOLANA_NOTIFICATION
                   NOTIFICATION_CONNECTION_URL_UPDATED (Some solana_payload))
                connected_page solana_payload
                eq_refl eq_refl eq_refl eq_refl)
      as (Hdone & Hafter & Hconn & _).
    split; [ exact Hdone | split; [ rewrite Hafter; reflexivity | ] ].
    exact Hconn.
  - apply (@extension_endpoint_update_rebuilds_client_only page
             (notification CHANNEL_SOLANA_NOTIFICATION
                NOTIFICATION_CONNECTION_URL_UPDATED (Some websocket_payload))
             connected_page websocket_payload
             eq_refl eq_refl eq_refl eq_refl).
Defined.

Lemma rejected_reply_key_leaves_provider_stuck_witness :
  let onConnect : Settled ConnectResult :=
    resolved (mkConnectResult "Key1" "https://rpc.old.example") in
  let again : Settled ConnectResult :=
    resolved
      (mkConnectResult "11111111111111111111111111111111"
         "https://rpc.old.example") in
  let stuck := after (@connect page onConnect (@constructor page)) in
  completion (@connect page onConnect (@constructor page)) =
    Throw (Error "Invalid public key input") /\
  isConnected stuck = true /\
  publicKey stuck = None /\
  @connect page again stuck =
    mkOutcome (Normal tt) stuck [ConsoleWarn "provider already connected"] /\
  @send page "tx" None None None None again (resolved "signature") stuck =
    mkOutcome (Throw (Error "wallet not connected")) stuck
      [ConsoleWarn "provider already connected"].
Proof.
  cbn zeta.
  destruct (@rejected_reply_key_leaves_provider_stuck page
              (resolved (mkConnectResult "Key1" "https://rpc.old.example"))
              (resolved
                 (mkConnectResult "11111111111111111111111111111111"
                    "https://rpc.old.example"))
              (mkConnectResult "Key1" "https://rpc.old.example")
              (Error "Invalid public key input")
              (G_send "tx" None None None None) (resolved "signature")
              (@constructor page) eq_refl eq_refl eq_refl eq_refl)
    as (Hthrown & Hflag & _ & Hagain & Hsend).
  split; [ exact Hthrown | split; [ exact Hflag | split; [ reflexivity | ] ] ].
  split; [ exact Hagain | exact Hsend ].
Defined.

Lemma plugin_endpoint_update_moves_every_operation_witness :
  let event := notification CHANNEL_PLUGIN_NOTIFICATION
                 PLUGIN_NOTIFICATION_CONNECTION_URL_UPDATED
                 (Some solana_payload) in
  let updated := after (@handleNotification page event embedded_page) in
  dispatched_connections
    (trace (@guarded page (G_simulate "tx" None None None None)
              (resolved (mkConnectResult "So11111111111111111111111111111111111111112" "https://rpc.example"))
              (resolved "ok") updated)) =
  [BackgroundSolanaConnection_new
     (InjectedRequestManager CHANNEL_SOLANA_CONNECTION_INJECTED_REQUEST
        CHANNEL_SOLANA_CONNECTION_INJECTED_RESPONSE)
     (Some "https://rpc.new.example")].
Proof.
  cbn zeta.
  apply (@plugin_endpoint_update_moves_every_operation page
           (notification CHANNEL_PLUGIN_NOTIFICATION
              PLUGIN_NOTIFICATION_CONNECTION_URL_UPDATED
              (Some solana_payload))
           embedded_page solana_payload
           (G_simulate "tx" None None None None)
           (resolved (mkConnectResult "So11111111111111111111111111111111111111112" "https://rpc.example"))
           (resolved "ok") eq_refl eq_refl eq_refl eq_refl eq_refl).
Defined.

Lemma guarded_with_account_goes_straight_witness :
  let o := @guarded page (G_send "tx" None None None None)
             (resolved (mkConnectResult "So11111111111111111111111111111111111111112" "https://rpc.example"))
             (rejected (Rejection "Transaction simulation failed"))
             connected_page in
  connect_attempts (trace o) = 0 /\
  completion o = Throw (Rejection "Transaction simulation failed") /\
  after o = connected_page.
Proof.
  destruct (@guarded_with_account_goes_straight page
              (G_send "tx" None None None None)
              (resolved (mkConnectResult "So11111111111111111111111111111111111111112" "https://rpc.example"))
              (rejected (Rejection "Transaction simulation failed"))
              connected_page eq_refl)
    as (H1 & H2 & _ & H3).
  repeat split; assumption.
Defined.

Lemma connected_without_account_is_stuck_witness :
  @guarded page (G_simulate "tx" None None None None)
    (resolved (mkConnectResult "So11111111111111111111111111111111111111112" "https://rpc.example")) (resolved "ok")
    keyless_page =
  mkOutcome (Throw (Error "wallet not connected")) keyless_page
    [ConsoleWarn "provider already connected"].
Proof.
  apply (@connected_without_account_is_stuck page); reflexivity.
Defined.

Lemma connect_binds_the_reply_witness :
  let o := @connect page
             (resolved
                (mkConnectResult "11111111111111111111111111111111"
                   "https://rpc.old.example"))
             (@constructor page) in
  let refused := @connect page
                   (resolved
                      (mkConnectResult "Key1" "https://rpc.old.example"))
                   (@constructor page) in
  (completion o = Normal tt /\
   isConnected (after o) = true /\
   publicKey (after o) =
     Some (KeyObject
             (PublicKey_new (Some "11111111111111111111111111111111"))) /\
   trace o =
     [ClientCall (_secureSolanaClient (@constructor page)) Req_connect]) /\
  (completion refused = Throw (Error "Invalid public key input") /\
   isConnected (after refused) = true /\
   after refused = set_isConnected true (@constructor page) /\
   publicKey (after refused) = None).
Proof.
  cbn zeta. split.
  - destruct (@connect_binds_the_reply page
                (resolved
                   (mkConnectResult "11111111111111111111111111111111"
                      "https://rpc.old.example"))
                (mkConnectResult "11111111111111111111111111111111"
                   "https://rpc.old.example")
                (@constructor page) eq_refl eq_refl)
      as (Hflag & Htrace & Hdone & Hkey & _).
    split; [ exact Hdone | split; [ exact Hflag | ] ].
    split; [ exact Hkey | exact Htrace ].
  - destruct (@connect_binds_the_reply page
                (resolved (mkConnectResult "Key1" "https://rpc.old.example"))
                (mkConnectResult "Key1" "https://rpc.old.example")
                (@constructor page) eq_refl eq_refl)
      as (Hflag & _ & Hthrown & Hafter & Hkey & _).
    split; [ exact Hthrown | split; [ exact Hflag | ] ].
    split; [ exact Hafter | exact Hkey ].
Defined.

Lemma connect_rejection_assigns_nothing_witness :
  let onConnect : Settled ConnectResult :=
    rejected (Rejection "User rejected the request") in
  completion (@connect page onConnect (@constructor page)) =
    Throw (Rejection "User rejected the request") /\
  after (@connect page onConnect (@constructor page)) = @constructor page.
Proof.
  destruct (@connect_rejection_assigns_nothing page
              (rejected (Rejection "User rejected the request"))
              (Rejection "User rejected the request")
              (@constructor page) eq_refl eq_refl)
    as (H1 & _ & H2).
  split; [ exact H1 | exact (H2 eq_refl) ].
Defined.

Lemma disconnect_rejection_clears_nothing_witness :
  let onDisconnect : Settled unit := rejected (Rejection "Locked") in
  completion (@disconnect page onDisconnect connected_page) =
    Throw (Rejection "Locked") /\
  after (@disconnect page onDisconnect connected_page) = connected_page.
Proof.
  destruct (@disconnect_rejection_clears_nothing page
              (rejected (Rejection "Locked")) (Rejection "Locked")
              connected_page eq_refl eq_refl)
    as (H1 & _ & H2).
  split; [ exact H1 | exact (H2 eq_refl) ].
Defined.

Lemma connect_then_disconnect_is_identity_witness :
  after (@disconnect page (resolved tt)
           (after (@connect page
                     (resolved (mkConnectResult "11111111111111111111111111111111" "https://rpc.example"))
                     (@constructor page)))) =
  @constructor page.
Proof.
  apply (@connect_then_disconnect_is_identity page); reflexivity.
Defined.

Lemma plugin_context_disables_disconnect_and_openXnft_witness :
  let later :=
    after (@run page
             [Message (notification CHANNEL_SOLANA_NOTIFICATION
                         NOTIFICATION_SOLANA_DISCONNECTED None);
              Invoke (Call_connect
                        (resolved (mkConnectResult "So11111111111111111111111111111111111111112" "https://rpc.example")))]
             embedded_page) in
  @disconnect page (resolved tt) later =
    mkOutcome (Normal tt) later [ConsoleWarn "xnft can't be disconnected"] /\
  @openXnft page "PluginAddress" (resolved tt) later =
    mkOutcome
      (Throw (Error "xnft context: use window.xnft.openPlugin instead"))
      later [].
Proof.
  apply (@plugin_context_disables_disconnect_and_openXnft page).
  reflexivity.
Defined.

Lemma client_follows_connection_until_endpoint_update_witness :
  let this :=
    after (@run page
             [Invoke (Call_connect
                        (resolved (mkConnectResult "11111111111111111111111111111111" "https://rpc.example")));
              Message (notification CHANNEL_PLUGIN_NOTIFICATION
                         PLUGIN_NOTIFICATION_CONNECTION_URL_UPDATED
                         (Some solana_payload));
              Message (notification CHANNEL_SOLANA_NOTIFICATION
                         NOTIFICATION_SOLANA_DISCONNECTED None)]
             (@constructor page)) in
  client_connection (_secureSolanaClient this) = connection this.
Proof.
  cbn zeta.
  apply (proj2 (@client_follows_connection_until_endpoint_update page
                  [Invoke (Call_connect
                             (resolved (mkConnectResult "11111111111111111111111111111111" "https://rpc.example")));
                   Message (notification CHANNEL_PLUGIN_NOTIFICATION
                              PLUGIN_NOTIFICATION_CONNECTION_URL_UPDATED
                              (Some solana_payload));
                   Message (notification CHANNEL_SOLANA_NOTIFICATION
                              NOTIFICATION_SOLANA_DISCONNECTED None)]
                  eq_refl)).
Defined.

Lemma externalResourceUri_rewrites_scheme_witness :
  Utils.externalResourceUri "ipfs://bafy/metadata.json" (Some true) =
    "https://cloudflare-ipfs.com/ipfs/bafy/metadata.json"%string /\
  Utils.externalResourceUri "ar://tx42" None =
    "https://arweave.net/tx42"%string.
Proof.
  split.
  - apply (proj1 (externalResourceUri_rewrites_scheme
                    "ipfs://bafy/metadata.json" "bafy/metadata.json"
                    (Some true))).
    reflexivity.
  - apply (proj2 (externalResourceUri_rewrites_scheme "ar://tx42" "tx42"
                    None)).
    reflexivity.
Defined.

Lemma externalResourceUri_idempotent_witness :
  Utils.externalResourceUri
    (Utils.externalResourceUri "ipfs://bafy/1.png" None) None =
  Utils.externalResourceUri "ipfs://bafy/1.png" None.
Proof. apply externalResourceUri_idempotent. discriminate. Defined.

Lemma truncate_fraction_shape_witness :
  Utils.truncate_fraction "1500" = "1500"%string /\
  Utils.split_dot (Utils.truncate_fraction "12.3456789") =
    ["12"%string; "34567"%string].
Proof.
  split.
  - apply (proj1 (truncate_fraction_shape "1500")). reflexivity.
  - apply (proj2 (truncate_fraction_shape "12.3456789") "12" "3456789" []).
    reflexivity.
Defined.

Lemma validatePrivateKey_returns_a_new_key_witness :
  @Utils.validatePrivateKey sample_sdk SOLANA "3yZe7d" sample_keyring =
    Normal (Utils.mkValidatedKey "0a0b0c" "KeyB") /\
  ~ In "KeyB"%string ["KeyC"%string] /\
  ~ In "KeyB"%string ["KeyA"%string].
Proof.
  split; [ reflexivity | ].
  split;
    apply (@validatePrivateKey_returns_a_new_key sample_sdk SOLANA "3yZe7d"
             sample_keyring [["KeyC"]; ["KeyA"]]
             (Utils.mkValidatedKey "0a0b0c" "KeyB") eq_refl eq_refl);
    cbn; auto.
Defined.

Lemma validatePrivateKey_supported_chains_witness :
  (exists message : string,
     @Utils.validatePrivateKey sample_sdk ETHEREUM "0xabc" sample_keyring =
     Throw (TypeError message)) /\
  @Utils.validatePrivateKey sample_sdk (OtherBlockchain "eclipse") "3yZe7d"
    sample_keyring =
    Throw (Error "secret key validation not implemented for blockchain").
Proof.
  split.
  - apply (proj1 (@validatePrivateKey_supported_chains sample_sdk ETHEREUM
                    "0xabc" sample_keyring)).
    reflexivity.
  - apply (proj1 (proj2 (@validatePrivateKey_supported_chains sample_sdk
                           (OtherBlockchain "eclipse") "3yZe7d"
                           sample_keyring))
             "eclipse" []); reflexivity.
Defined.
